(** * Medical image enhancement front end: a shallow embedding

    The development follows the JavaScript sources of the repository:

    - [mock/mockData.js] (the mock job history and the mock API),
    - the simulated [ImageUpload] component, which validates a selected file
      and runs the enhancement on a canvas,
    - the backend-connected [ImageUpload] component (axios),
    - the [EnhancementHistory] component with its download handler.

    JavaScript numbers are IEEE binary64 values, so they are modelled by the
    kernel's primitive floats; the canvas pixel buffer (a [Uint8ClampedArray])
    is a list of integers updated by index; component state is a record
    threaded explicitly together with the log of effects (toasts, requests,
    link clicks) a handler performs. *)

From Stdlib Require Import ZArith Lia Floats Uint63 DecimalString Sorted.
From stdpp Require Import base list strings.

Set Warnings "-inexact-float".

Local Open Scope Z_scope.

(** ** Fragments of ECMAScript the sources rely on *)

Module JS.

(** The Number value of an integer read from a typed array (exact for
    every integer from 0 to 2^53, bytes included). *)
Definition Number_of_Z (z : Z) : float := PrimFloat.of_uint63 (Uint63.of_Z z).

(** [Math.min(a, b)]: NaN if either argument is NaN, and -0 below +0. *)
Definition Math_min (a b : float) : float :=
  if (PrimFloat.is_nan a || PrimFloat.is_nan b)%bool then PrimFloat.nan
  else if PrimFloat.ltb a b then a
  else if PrimFloat.ltb b a then b
  else if PrimFloat.get_sign a then a else b.

(** [ToUint8Clamp]: the conversion applied when a Number is stored into a
    [Uint8ClampedArray].  NaN becomes 0, the value is clamped to
    [0, 255] and rounded to the nearest integer, ties going to the even
    one.  A finite positive double is [m * 2^e]; floor and remainder are
    computed on that exact decomposition. *)
Definition ToUint8Clamp (x : float) : Z :=
  if PrimFloat.is_nan x then 0
  else if PrimFloat.leb x PrimFloat.zero then 0
  else if PrimFloat.leb (Number_of_Z 255) x then 255
  else
    match Prim2SF x with
    | S754_finite _ m e =>
        if 0 <=? e then Z.pos m * 2 ^ e
        else
          let d := 2 ^ (- e) in
          let f := Z.pos m / d in
          let r2 := 2 * (Z.pos m mod d) in
          if d <? r2 then f + 1
          else if r2 <? d then f
          else if Z.even f then f else f + 1
    | _ => 0
    end.

(** [String.prototype.substr(start, length)] for non-negative arguments. *)
Definition substr (s : string) (start len : nat) : string :=
  String.substring start len s.

End JS.

(** ** The enhancement pass of the simulated component

    [simulateEnhancement] draws the image on a canvas, takes
    [imageData.data] (four bytes per pixel: R, G, B, A) and rewrites it in
    place with the loop

    [for (let i = 0; i < data.length; i += 4) { ... }]. *)

Module Enhancement.

Import JS.

(** [data[i]] used as a Number: an index past the end reads [undefined],
    which arithmetic turns into NaN. *)
Definition get (data : list Z) (i : nat) : float :=
  match data !! i with
  | Some v => Number_of_Z v
  | None => PrimFloat.nan
  end.

(** [data[i] = v]: stores [ToUint8Clamp v]; a write past the end of a typed
    array is ignored, which is what list insertion does. *)
Definition set (data : list Z) (i : nat) (v : float) : list Z :=
  <[ i := ToUint8Clamp v ]> data.

(** [gray = R * 0.299 + G * 0.587 + B * 0.114] *)
Definition gray (r g b : float) : float :=
  (r * 0.299 + g * 0.587 + b * 0.114)%float.

(** [enhanced = Math.min(255, gray * 1.2)] *)
Definition enhanced (r g b : float) : float :=
  Math_min (Number_of_Z 255) (gray r g b * 1.2)%float.

(** One iteration of the loop body at index [i]. *)
Definition pixel_step (data : list Z) (i : nat) : list Z :=
  let e := enhanced (get data i) (get data (i + 1)) (get data (i + 2)) in
  set (set (set data i e) (i + 1) e) (i + 2) e.

(** The loop from index [i]; [None] when the fuel does not reach the exit. *)
Fixpoint pixel_loop (fuel : nat) (i : nat) (data : list Z) {struct fuel}
  : option (list Z) :=
  if decide (i < length data)%nat then
    match fuel with
    | O => None
    | S fuel' => pixel_loop fuel' (i + 4) (pixel_step data i)
    end
  else Some data.

(** The whole pass: the loop started at 0; it runs at most once per byte. *)
Definition pixel_pass (data : list Z) : option (list Z) :=
  pixel_loop (length data) 0 data.

(** The byte the pass stores in each colour channel of a pixel. *)
Definition channel (r g b : Z) : Z :=
  ToUint8Clamp (enhanced (Number_of_Z r) (Number_of_Z g) (Number_of_Z b)).

(** The values a [Uint8ClampedArray] can hold. *)
Definition is_byte (v : Z) : Prop := 0 <= v <= 255.

(** What the iteration at index [p] stores in the colour channels. *)
Definition stored (data : list Z) (p : nat) : Z :=
  ToUint8Clamp (enhanced (get data p) (get data (p + 1)) (get data (p + 2))).

(** The transform read as a map on numbers, without the byte store: every
    colour channel of output pixel [k] is the Number [E] itself. *)
Definition outputs_E_unrounded (data : list Z) (k : nat) : Prop :=
  ∀ r g b a,
    data !! (4 * k)%nat = Some r → data !! (4 * k + 1)%nat = Some g →
    data !! (4 * k + 2)%nat = Some b → data !! (4 * k + 3)%nat = Some a →
    ∃ out,
      pixel_pass data = Some out
      ∧ (∀ c, (c < 3)%nat →
           ∃ v, out !! (4 * k + c)%nat = Some v
                ∧ Number_of_Z v
                  = enhanced (Number_of_Z r) (Number_of_Z g) (Number_of_Z b))
      ∧ out !! (4 * k + 3)%nat = Some a.

End Enhancement.


(** ** What a handler can do to the outside world *)

Module Browser.

(** A [File] picked in the file input. *)
Record File := { name : string; type : string; size : Z }.

(** The argument of [toast({ title, description, variant })]. *)
Record Toast :=
  { title : string; description : string; variant : option string }.

Definition Blob := list Z.

(** What [getImageData] returns. *)
Record ImageData := { width : nat; height : nat; data : list Z }.

(** A [data:] URL: its media type and what it encodes, either the
    bytes of a file or the bitmap of a canvas, named by the [ImageData]
    that [putImageData] wrote on it.  The bitmap keeps each colour
    premultiplied by the pixel's alpha, so the pixels read from the
    encoded image are the ones written only where alpha is 255; for the
    other pixels see [Bitmap.png_pixels]. *)
Inductive Content :=
| file_bytes (f : File)
| canvas_pixels (img : ImageData).

Record DataURL := { mediaType : string; content : Content }.

(** [reader.readAsDataURL(file)]: the file's bytes under its own type. *)
Definition readAsDataURL (file : File) : DataURL :=
  {| mediaType := type file; content := file_bytes file |}.

(** The observable actions of the handlers, in the order performed. *)
Inductive Effect :=
| toast (t : Toast)
| request (method url : string) (body : option File)
| link_click (download : string) (content : Blob)
| console_error (label : string)
| console_log (label : string).

(** The downloads a log of effects started: the suggested file names of
    its link clicks. *)
Definition downloads (log : list Effect) : list string :=
  omap (fun e => match e with
                 | link_click filename _ => Some filename
                 | _ => None
                 end) log.

Definition is_request (e : Effect) : bool :=
  match e with request _ _ _ => true | _ => false end.

(** The HTTP requests in a log of effects. *)
Definition requests (log : list Effect) : list Effect :=
  List.filter is_request log.

(** An awaited promise either resolves with a value or rejects; the
    rejection carries [error.response?.data?.detail]. *)
Inductive Outcome (A : Type) :=
| Resolved (a : A)
| Rejected (detail : option string).
Arguments Resolved {A} a.
Arguments Rejected {A} detail.

(** [Array.prototype.includes] on an array of strings. *)
Definition includes (l : list string) (x : string) : bool :=
  existsb (String.eqb x) l.

(** Truthiness of a possibly missing string: [undefined], [null] and the
    empty string are falsy. *)
Definition truthy (s : option string) : option string :=
  match s with
  | Some EmptyString => None
  | other => other
  end.

(** [a || b] on strings *)
Definition or_else (a : option string) (b : string) : string :=
  match truthy a with
  | Some s => s
  | None => b
  end.

(** [`${n}`] for an integer-valued Number. *)
Definition Z_to_string (n : Z) : string :=
  NilZero.string_of_int (Z.to_int n).

(** The characters [.] does not match in a regular expression (the line
    terminators that fit in one byte). *)
Definition is_line_terminator (c : Ascii.ascii) : bool :=
  (Ascii.eqb c (Ascii.ascii_of_nat 10) || Ascii.eqb c (Ascii.ascii_of_nat 13))%bool.

(** [s] without the prefix [p], when it starts with it. *)
Fixpoint strip_prefix (p s : string) : option string :=
  match p, s with
  | EmptyString, _ => Some s
  | String a p', String b s' =>
      if Ascii.eqb a b then strip_prefix p' s' else None
  | String _ _, EmptyString => None
  end.

(** What a greedy [.+] or [.*] consumes: all characters up to the first
    line terminator. *)
Fixpoint dots (s : string) : string :=
  match s with
  | EmptyString => EmptyString
  | String c s' =>
      if is_line_terminator c then EmptyString else String c (dots s')
  end.

(** [s.match(/filename=(.+)/)]: the capture group of the leftmost match,
    that is of the first occurrence of [filename=] followed by at least
    one character that is not a line terminator. *)
Fixpoint match_filename (s : string) : option string :=
  match s with
  | EmptyString => None
  | String _ s' =>
      match strip_prefix "filename=" s with
      | Some rest =>
          match dots rest with
          | EmptyString => match_filename s'
          | capture => Some capture
          end
      | None => match_filename s'
      end
  end.

Definition double_quote : Ascii.ascii := Ascii.ascii_of_nat 34.

(** The global replace of the double-quote character by nothing. *)
Fixpoint remove_quotes (s : string) : string :=
  match s with
  | EmptyString => EmptyString
  | String c s' =>
      if Ascii.eqb c double_quote then remove_quotes s'
      else String c (remove_quotes s')
  end.

(** The block both download handlers share: the [filename] computed so
    far is replaced by the one of the [content-disposition] header when
    the header is there and matches. *)
Definition filename_from_header
    (contentDisposition : option string) (filename : string) : string :=
  match truthy contentDisposition with
  | Some header =>
      match match_filename header with
      | Some capture => remove_quotes capture
      | None => filename
      end
  | None => filename
  end.

End Browser.

(** ** The HTTP interface and the job records it carries *)

Module Api.

Import Browser.

(** One entry of the history, as [mockEnhancementHistory] and the
    [/images/history] response list them.  [enhancedImageName] may be
    missing ([handleDownload] has a fallback for it). *)
Record Job :=
  { id : string;
    originalImageName : string;
    enhancedImageName : option string;
    uploadDate : string;
    enhancementType : string;
    status : string;
    processingTime : float }.

Record UploadResponse :=
  { upload_success : bool;
    imageId : string;
    upload_message : string;
    originalImageUrl : string }.

Record EnhanceResponse :=
  { enhance_success : bool;
    enhancedImageUrl : string;
    enhance_processingTime : float;
    enhance_message : string }.

Record HistoryResponse :=
  { history_success : bool;
    history_data : list Job }.

(** A blob response: [response.data] and
    [response.headers['content-disposition']]. *)
Record DownloadResponse :=
  { blob : Blob;
    content_disposition : option string }.

(** The backend behind axios, with whatever state [B] it keeps (job
    records, stored assets).  Only a request can change that state. *)
Record Server (B : Type) :=
  { BACKEND_URL : string;
    post_upload : B -> File -> B * Outcome UploadResponse;
    get_download : B -> string -> B * Outcome DownloadResponse;
    get_history : B -> B * Outcome HistoryResponse }.
Arguments BACKEND_URL {B} _.
Arguments post_upload {B} _ _ _.
Arguments get_download {B} _ _ _.
Arguments get_history {B} _ _.

(** [const API = `${BACKEND_URL}/api`] *)
Definition API {B} (srv : Server B) : string := BACKEND_URL srv +:+ "/api".

End Api.

(** ** Handlers: state passing with an effect log *)

Module Handler.

Import Browser.

Section Monad.
Context {W : Type}.

Definition Handler (A : Type) : Type := W -> A * W * list Effect.

Definition ret {A} (a : A) : Handler A := fun w => (a, w, []).

Definition bind {A B} (m : Handler A) (k : A -> Handler B) : Handler B :=
  fun w =>
    let '(a, w1, l1) := m w in
    let '(b, w2, l2) := k a w1 in
    (b, w2, l1 ++ l2).

Definition emit (e : Effect) : Handler unit := fun w => (tt, w, [e]).

Definition gets {A} (f : W -> A) : Handler A := fun w => (f w, w, []).

Definition modify (f : W -> W) : Handler unit := fun w => (tt, f w, []).

(** the state a handler leaves, and what it did *)
Definition final {A} (m : Handler A) (w : W) : W := snd (fst (m w)).
Definition effects {A} (m : Handler A) (w : W) : list Effect := snd (m w).
End Monad.

Arguments Handler W A : clear implicits.

Declare Scope handler_scope.
Delimit Scope handler_scope with handler.
Notation "'let*' x ':=' m 'in' k" := (bind m (fun x => k))
  (at level 10, x name, m at level 100, k at level 200) : handler_scope.
Notation "m '>>>' k" := (bind m (fun _ => k))
  (at level 100, k at level 200, right associativity) : handler_scope.

End Handler.

(** ** The simulated upload component (enhancement on a canvas) *)

Module Simulated.

Import Browser Handler.
Local Open Scope handler_scope.

(** The component's [useState] cells. *)
Record State :=
  { originalImage : option DataURL;
    enhancedImage : option DataURL;
    isProcessing : bool;
    uploadedFile : option File }.

Definition setOriginalImage (v : option DataURL) : Handler State unit :=
  modify (fun s => {| originalImage := v; enhancedImage := enhancedImage s;
                      isProcessing := isProcessing s;
                      uploadedFile := uploadedFile s |}).
Definition setEnhancedImage (v : option DataURL) : Handler State unit :=
  modify (fun s => {| originalImage := originalImage s; enhancedImage := v;
                      isProcessing := isProcessing s;
                      uploadedFile := uploadedFile s |}).
Definition setIsProcessing (v : bool) : Handler State unit :=
  modify (fun s => {| originalImage := originalImage s;
                      enhancedImage := enhancedImage s;
                      isProcessing := v; uploadedFile := uploadedFile s |}).
Definition setUploadedFile (v : option File) : Handler State unit :=
  modify (fun s => {| originalImage := originalImage s;
                      enhancedImage := enhancedImage s;
                      isProcessing := isProcessing s; uploadedFile := v |}).

Definition validTypes : list string := ["image/jpeg"; "image/jpg"; "image/png"].

Definition maxSize : Z := 10 * 1024 * 1024.

Definition toast_invalid_type : Toast :=
  {| title := "Invalid file type";
     description := "Please upload a JPG, JPEG, or PNG image.";
     variant := Some "destructive" |}.

Definition toast_too_large : Toast :=
  {| title := "File too large";
     description := "Please upload an image smaller than 10MB.";
     variant := Some "destructive" |}.

Definition toast_uploaded : Toast :=
  {| title := "Image uploaded successfully";
     description := "You can now enhance your medical image.";
     variant := None |}.

Definition toast_enhanced : Toast :=
  {| title := "Enhancement completed";
     description := "Your medical image has been enhanced successfully.";
     variant := None |}.

(** [handleFileSelect]; the argument is [event.target.files[0]].  The
    reader's [onload] callback is run right after [readAsDataURL]. *)
Definition handleFileSelect (file0 : option File) : Handler State unit :=
  match file0 with
  | None => ret tt
  | Some file =>
      if negb (includes validTypes (type file)) then
        emit (toast toast_invalid_type)
      else if size file >? maxSize then
        emit (toast toast_too_large)
      else
        setUploadedFile (Some file) >>>
        setOriginalImage (Some (readAsDataURL file)) >>>
        setEnhancedImage None >>>
        emit (toast toast_uploaded)
  end.

Section Canvas.

(** Loading the URL into an [Image] and reading the canvas back: the
    decoded raster, or nothing when the image never loads. *)
Variable decode : DataURL -> option ImageData.

(** Whether the canvas has an encoder for a type other than PNG. *)
Variable encoder_available : string -> bool.

(** [canvas.toDataURL(type)] of the canvas [img] was put on: PNG is
    always available and is the fallback for a type without encoder.
    The content names the canvas by [img]; it does not say that the
    encoded pixels are the bytes of [img]. *)
Definition toDataURL (type : string) (img : ImageData) : DataURL :=
  {| mediaType :=
       if String.eqb type "image/png" then "image/png"
       else if encoder_available type then type else "image/png";
     content := canvas_pixels img |}.

(** [simulateEnhancement]: the body of the timeout and of [img.onload]
    run to completion when the image loads. *)
Definition simulateEnhancement : Handler State unit :=
  let* original := gets originalImage in
  match original with
  | None => ret tt
  | Some src =>
      setIsProcessing true >>>
      match decode src with
      | None => ret tt
      | Some img =>
          match Enhancement.pixel_pass (data img) with
          | None => ret tt
          | Some out =>
              let imageData :=
                {| width := width img; height := height img; data := out |} in
              let enhancedDataUrl := toDataURL "image/png" imageData in
              setEnhancedImage (Some enhancedDataUrl) >>>
              setIsProcessing false >>>
              emit (toast toast_enhanced)
          end
      end
  end.

End Canvas.

End Simulated.

(** ** The backend-connected upload component *)

Module Backed.

Import Browser Api Handler.
Local Open Scope handler_scope.

(** The component's [useState] cells. *)
Record State :=
  { originalImage : option DataURL;
    enhancedImage : option string;
    isProcessing : bool;
    isUploading : bool;
    uploadedFile : option File;
    currentImageId : option string }.

Section WithServer.

Context {B : Type}.
Variable srv : Server B.

(** The component together with the backend it talks to. *)
Record World := { ui : State; backend : B }.

Definition update (f : State -> State) : Handler World unit :=
  modify (fun w => {| ui := f (ui w); backend := backend w |}).

Definition setOriginalImage (v : option DataURL) : Handler World unit :=
  update (fun s => {| originalImage := v; enhancedImage := enhancedImage s;
                      isProcessing := isProcessing s;
                      isUploading := isUploading s;
                      uploadedFile := uploadedFile s;
                      currentImageId := currentImageId s |}).
Definition setEnhancedImage (v : option string) : Handler World unit :=
  update (fun s => {| originalImage := originalImage s; enhancedImage := v;
                      isProcessing := isProcessing s;
                      isUploading := isUploading s;
                      uploadedFile := uploadedFile s;
                      currentImageId := currentImageId s |}).
Definition setIsUploading (v : bool) : Handler World unit :=
  update (fun s => {| originalImage := originalImage s;
                      enhancedImage := enhancedImage s;
                      isProcessing := isProcessing s;
                      isUploading := v;
                      uploadedFile := uploadedFile s;
                      currentImageId := currentImageId s |}).
Definition setUploadedFile (v : option File) : Handler World unit :=
  update (fun s => {| originalImage := originalImage s;
                      enhancedImage := enhancedImage s;
                      isProcessing := isProcessing s;
                      isUploading := isUploading s;
                      uploadedFile := v;
                      currentImageId := currentImageId s |}).
Definition setCurrentImageId (v : option string) : Handler World unit :=
  update (fun s => {| originalImage := originalImage s;
                      enhancedImage := enhancedImage s;
                      isProcessing := isProcessing s;
                      isUploading := isUploading s;
                      uploadedFile := uploadedFile s;
                      currentImageId := v |}).

(** [await axios.post(`${API}/images/upload`, formData, ...)] *)
Definition axios_post_upload (file : File)
  : Handler World (Outcome UploadResponse) :=
  fun w =>
    let '(b, r) := post_upload srv (backend w) file in
    (r, {| ui := ui w; backend := b |},
     [request "POST" (API srv +:+ "/images/upload") (Some file)]).

(** [await axios.get(`${API}/images/${id}/download`, ...)] *)
Definition axios_get_download (id : string)
  : Handler World (Outcome DownloadResponse) :=
  fun w =>
    let '(b, r) := get_download srv (backend w) id in
    (r, {| ui := ui w; backend := b |},
     [request "GET" (API srv +:+ "/images/" +:+ id +:+ "/download") None]).

Definition validTypes : list string :=
  ["image/jpeg"; "image/jpg"; "image/png"].

Definition maxSize : Z := 10 * 1024 * 1024.

Definition toast_invalid_type : Toast :=
  {| title := "Invalid file type";
     description := "Please upload a JPG, JPEG, or PNG image.";
     variant := Some "destructive" |}.

Definition toast_too_large : Toast :=
  {| title := "File too large";
     description := "Please upload an image smaller than 10MB.";
     variant := Some "destructive" |}.

Definition toast_upload_successful (message : string) : Toast :=
  {| title := "Upload successful"; description := message;
     variant := None |}.

Definition toast_upload_failed (detail : option string) : Toast :=
  {| title := "Upload failed";
     description := or_else detail "Failed to upload image";
     variant := Some "destructive" |}.

(** [handleFileSelect]; the argument is [event.target.files[0]].  This is
    the handler in one of its schedules: the preview reader's [onload]
    runs before the response arrives, and nothing else runs in between.
    [BackedSelect] has the handler cut at its [await] and the other
    order of the two events. *)
Definition handleFileSelect (file0 : option File) : Handler World unit :=
  match file0 with
  | None => ret tt
  | Some file =>
      if negb (includes validTypes (type file)) then
        emit (toast toast_invalid_type)
      else if size file >? maxSize then
        emit (toast toast_too_large)
      else
        setUploadedFile (Some file) >>>
        setIsUploading true >>>
        setEnhancedImage None >>>
        setCurrentImageId None >>>
        setOriginalImage (Some (readAsDataURL file)) >>>
        let* response := axios_post_upload file in
        match response with
        | Resolved data =>
            if upload_success data then
              setCurrentImageId (Some (imageId data)) >>>
              emit (toast (toast_upload_successful (upload_message data)))
            else ret tt
        | Rejected detail =>
            emit (console_error "Upload error:") >>>
            emit (toast (toast_upload_failed detail)) >>>
            setOriginalImage None >>>
            setUploadedFile None
        end >>>
        setIsUploading false
  end.

Definition toast_download_started : Toast :=
  {| title := "Download started";
     description := "Enhanced image is being downloaded.";
     variant := None |}.

Definition toast_download_failed : Toast :=
  {| title := "Download failed";
     description := "Failed to download enhanced image";
     variant := Some "destructive" |}.

(** [downloadEnhancedImage]; [now] is the value of [Date.now()]. *)
Definition downloadEnhancedImage (now : Z) : Handler World unit :=
  let* current := gets (fun w => currentImageId (ui w)) in
  match truthy current with
  | None => ret tt
  | Some id =>
      let* response := axios_get_download id in
      match response with
      | Resolved r =>
          let filename :=
            "enhanced_medical_image_" +:+ Z_to_string now +:+ ".png" in
          let filename :=
            filename_from_header (content_disposition r) filename in
          emit (link_click filename (blob r)) >>>
          emit (toast toast_download_started)
      | Rejected _ =>
          emit (console_error "Download error:") >>>
          emit (toast toast_download_failed)
      end
  end.

End WithServer.

Arguments World B : clear implicits.

End Backed.

(** ** The history component *)

Module History.

Import Browser Api Handler.
Local Open Scope handler_scope.

Record State := { history : list Job; loading : bool }.

Section WithServer.

Context {B : Type}.
Variable srv : Server B.

Record World := { ui : State; backend : B }.

Definition update (f : State -> State) : Handler World unit :=
  modify (fun w => {| ui := f (ui w); backend := backend w |}).

Definition setHistory (v : list Job) : Handler World unit :=
  update (fun s => {| history := v; loading := loading s |}).
Definition setLoading (v : bool) : Handler World unit :=
  update (fun s => {| history := history s; loading := v |}).

(** [await axios.get(`${API}/images/history`)] *)
Definition axios_get_history : Handler World (Outcome HistoryResponse) :=
  fun w =>
    let '(b, r) := get_history srv (backend w) in
    (r, {| ui := ui w; backend := b |},
     [request "GET" (API srv +:+ "/images/history") None]).

(** [await axios.get(`${API}/images/${item.id}/download`, ...)] *)
Definition axios_get_download (id : string)
  : Handler World (Outcome DownloadResponse) :=
  fun w =>
    let '(b, r) := get_download srv (backend w) id in
    (r, {| ui := ui w; backend := b |},
     [request "GET" (API srv +:+ "/images/" +:+ id +:+ "/download") None]).

Definition toast_history_failed : Toast :=
  {| title := "Failed to load history";
     description := "Could not fetch enhancement history";
     variant := Some "destructive" |}.

(** [loadHistory] *)
Definition loadHistory : Handler World unit :=
  setLoading true >>>
  let* response := axios_get_history in
  match response with
  | Resolved data =>
      if history_success data then setHistory (history_data data)
      else ret tt
  | Rejected _ =>
      emit (console_error "Failed to load history:") >>>
      emit (toast toast_history_failed)
  end >>>
  setLoading false.

Definition toast_not_available : Toast :=
  {| title := "Download not available";
     description := "Enhancement not completed yet";
     variant := Some "destructive" |}.

Definition toast_download_started (filename : string) : Toast :=
  {| title := "Download started";
     description := "Downloading " +:+ filename;
     variant := None |}.

Definition toast_download_failed : Toast :=
  {| title := "Download failed";
     description := "Could not download the enhanced image";
     variant := Some "destructive" |}.

(** [item.status !== 'Completed'] *)
Definition not_completed (item : Job) : bool :=
  negb (String.eqb (status item) "Completed").

(** [handleDownload] *)
Definition handleDownload (item : Job) : Handler World unit :=
  if not_completed item then
    emit (toast toast_not_available)
  else
    let* response := axios_get_download (id item) in
    match response with
    | Resolved r =>
        let filename :=
          or_else (enhancedImageName item)
                  ("enhanced_" +:+ originalImageName item +:+ ".png") in
        let filename :=
          filename_from_header (content_disposition r) filename in
        emit (link_click filename (blob r)) >>>
        emit (toast (toast_download_started filename))
    | Rejected _ =>
        emit (console_error "Download failed:") >>>
        emit (toast toast_download_failed)
    end.

(** The Download button of a row: [disabled={item.status !== 'Completed'}],
    and a disabled button does not run its [onClick]. *)
Definition download_button (item : Job) : Handler World unit :=
  if not_completed item then ret tt else handleDownload item.

End WithServer.

Arguments World B : clear implicits.

End History.

(** ** Upload times

    [uploadDate] is an ISO-8601 UTC string of the shape
    [YYYY-MM-DDTHH:mm:ssZ].  [Date_parse] gives the time value of such a
    string, the milliseconds since the epoch, as ECMAScript's date-time
    string format defines it and [new Date(dateString)] computes it.  It
    gives nothing for any other string: another shape, a UTC offset or a
    fraction of a second, a wrong separator, a field out of range (the
    hour 24 included).  There [new Date] gives [NaN] or follows rules of
    the engine, and no order of upload times is read from it. *)

Module Dates.

Import Stdlib.Strings.Ascii.

Definition digit_of (c : Ascii.ascii) : option Z :=
  let n := Z.of_nat (Ascii.nat_of_ascii c) in
  if ((48 <=? n) && (n <=? 57))%bool then Some (n - 48) else None.

Fixpoint number_of (s : string) (acc : Z) : option Z :=
  match s with
  | EmptyString => Some acc
  | String c s' => d ← digit_of c; number_of s' (10 * acc + d)
  end.

Definition field (s : string) (start len : nat) : option Z :=
  let f := String.substring start len s in
  if (String.length f =? len)%nat then number_of f 0 else None.

(** Days from 1970-01-01 to the given day of the proleptic Gregorian
    calendar. *)
Definition days_from_civil (y m d : Z) : Z :=
  let y' := if m <=? 2 then y - 1 else y in
  let era := y' / 400 in
  let yoe := y' - era * 400 in
  let mp := if 2 <? m then m - 3 else m + 9 in
  let doy := (153 * mp + 2) / 5 + d - 1 in
  let doe := yoe * 365 + yoe / 4 - yoe / 100 + doy in
  era * 146097 + doe - 719468.

(** The character at index [i] of [s] is [c]. *)
Definition has_char (s : string) (i : nat) (c : Ascii.ascii) : bool :=
  match String.get i s with
  | Some x => Ascii.eqb x c
  | None => false
  end.

(** The separators of [YYYY-MM-DDTHH:mm:ssZ], each at its place, and
    nothing after the [Z]. *)
Definition well_separated (s : string) : bool :=
  ((String.length s =? 20)%nat
   && has_char s 4 "-"%char && has_char s 7 "-"%char
   && has_char s 10 "T"%char && has_char s 13 ":"%char
   && has_char s 16 ":"%char && has_char s 19 "Z"%char)%bool.

Definition leap_year (y : Z) : bool :=
  ((y mod 4 =? 0) && (negb (y mod 100 =? 0) || (y mod 400 =? 0)))%bool.

Definition days_in_month (y m : Z) : Z :=
  if m =? 2 then (if leap_year y then 29 else 28)
  else if ((m =? 4) || (m =? 6) || (m =? 9) || (m =? 11))%bool then 30
  else 31.

Definition in_range (y mo d h mi se : Z) : bool :=
  ((1 <=? mo) && (mo <=? 12) && (1 <=? d) && (d <=? days_in_month y mo)
   && (h <=? 23) && (mi <=? 59) && (se <=? 59))%bool.

Definition Date_parse (s : string) : option Z :=
  if well_separated s then
    y ← field s 0 4; mo ← field s 5 2; d ← field s 8 2;
    h ← field s 11 2; mi ← field s 14 2; se ← field s 17 2;
    if in_range y mo d h mi se then
      Some ((((days_from_civil y mo d * 24 + h) * 60 + mi) * 60 + se) * 1000)
    else None
  else None.

(** [a] is a later instant than [b]; two strings are compared only when
    both have a time value. *)
Definition later (a b : string) : Prop :=
  match Date_parse a, Date_parse b with
  | Some ta, Some tb => tb < ta
  | _, _ => False
  end.

End Dates.

(** ** The mock data and the mock API *)

Module Mock.

Import Browser Api Handler.
Local Open Scope handler_scope.

Definition mockEnhancementHistory : list Job :=
  [ {| id := "1";
       originalImageName := "brain_scan_001.png";
       enhancedImageName := Some "enhanced_brain_scan_001.png";
       uploadDate := "2025-01-15T10:30:00Z";
       enhancementType := "Grayscale + Sharpening";
       status := "Completed";
       processingTime := 1.5 |};
    {| id := "2";
       originalImageName := "chest_xray_002.jpg";
       enhancedImageName := Some "enhanced_chest_xray_002.png";
       uploadDate := "2025-01-14T15:45:00Z";
       enhancementType := "Grayscale + Sharpening";
       status := "Completed";
       processingTime := 2.1 |};
    {| id := "3";
       originalImageName := "mri_scan_003.png";
       enhancedImageName := Some "enhanced_mri_scan_003.png";
       uploadDate := "2025-01-13T09:15:00Z";
       enhancementType := "Grayscale + Sharpening";
       status := "Completed";
       processingTime := 1.8 |} ].

(** The entries appended to a [FormData]. *)
Definition FormData := list (string * File).

(** One value of [Math.random()], given by its rendering in base 36: the
    digits (each below 36) that [toString(36)] prints after the point.
    The draw 0 has none; the draw 0.5 has the single digit 18. *)
Record Draw := { fraction_digits : list nat }.

Definition digit_chars : string := "0123456789abcdefghijklmnopqrstuvwxyz".

Definition digit_char (d : nat) : Ascii.ascii :=
  match String.get d digit_chars with
  | Some c => c
  | None => Ascii.zero
  end.

Fixpoint string_of_digits (ds : list nat) : string :=
  match ds with
  | [] => EmptyString
  | d :: ds' => String (digit_char d) (string_of_digits ds')
  end.

(** [Math.random().toString(36)]: a value in [0, 1) prints as [0] or as
    [0.] followed by its fraction digits. *)
Definition random_toString36 (r : Draw) : string :=
  match fraction_digits r with
  | [] => "0"
  | ds => "0." +:+ string_of_digits ds
  end.

(** [mockAPI.uploadImage]; the promise always resolves (after a second). *)
Definition uploadImage (formData : FormData) (random : Draw)
  : Outcome UploadResponse :=
  Resolved
    {| upload_success := true;
       imageId := JS.substr (random_toString36 random) 2 9;
       upload_message := "Image uploaded successfully";
       originalImageUrl := "/mock-image-url" |}.

(** [mockAPI.enhanceImage]; [random] is the value of [Math.random()]. *)
Definition enhanceImage (imageId : string) (random : float)
  : Outcome EnhanceResponse :=
  Resolved
    {| enhance_success := true;
       enhancedImageUrl := "/mock-enhanced-url";
       enhance_processingTime := (random * 2 + 1)%float;
       enhance_message := "Image enhanced successfully" |}.

(** [mockAPI.getEnhancementHistory]; [store] is the module's
    [mockEnhancementHistory] array, handed out as it is. *)
Definition getEnhancementHistory (store : list Job)
  : Outcome HistoryResponse :=
  Resolved {| history_success := true; history_data := store |}.

(** The calls a client can make, the replies, and the mock as a machine
    over its only state, the history array. *)
Inductive Call :=
| call_uploadImage (formData : FormData) (random : Draw)
| call_enhanceImage (imageId : string) (random : float)
| call_getEnhancementHistory.

Inductive Reply :=
| reply_upload (r : Outcome UploadResponse)
| reply_enhance (r : Outcome EnhanceResponse)
| reply_history (r : Outcome HistoryResponse).

Definition mockAPI (store : list Job) (c : Call) : list Job * Reply :=
  match c with
  | call_uploadImage formData random =>
      (store, reply_upload (uploadImage formData random))
  | call_enhanceImage imageId random =>
      (store, reply_enhance (enhanceImage imageId random))
  | call_getEnhancementHistory =>
      (store, reply_history (getEnhancementHistory store))
  end.

Fixpoint run (store : list Job) (calls : list Call)
  : list Job * list Reply :=
  match calls with
  | [] => (store, [])
  | c :: calls' =>
      let '(store1, r) := mockAPI store c in
      let '(store2, rs) := run store1 calls' in
      (store2, r :: rs)
  end.

(** The list runs from the latest upload to the earliest. *)
Definition most_recent_first (jobs : list Job) : Prop :=
  StronglySorted
    (fun a b => Dates.later (uploadDate a) (uploadDate b)) jobs.

(** The job records a reply carries. *)
Definition jobs_of (r : Reply) : list Job :=
  match r with
  | reply_history (Resolved h) => history_data h
  | _ => []
  end.

(** [loadHistory] of the history component in its mock-backed version. *)
Definition loadHistory (store : list Job) : Handler History.State unit :=
  modify (fun s => {| History.history := History.history s;
                      History.loading := true |}) >>>
  match getEnhancementHistory store with
  | Resolved response =>
      if history_success response then
        modify (fun s => {| History.history := history_data response;
                            History.loading := History.loading s |})
      else ret tt
  | Rejected _ => emit (console_error "Failed to load history:")
  end >>>
  modify (fun s => {| History.history := History.history s;
                      History.loading := false |}).

End Mock.

(** ** Instances to run the handlers on *)

Module Sample.

Import Browser Api.

(** A backend that keeps the uploaded files, names each job after its
    file, and answers downloads without a [content-disposition] header
    the script can read. *)
Definition server : Server (list File) :=
  {| BACKEND_URL := "http://localhost:8001";
     post_upload := fun stored file =>
       (file :: stored,
        Resolved {| upload_success := true;
                    imageId := name file;
                    upload_message := "Image uploaded successfully";
                    originalImageUrl := "/api/images/original/" +:+ name file |});
     get_download := fun stored id =>
       (stored, Resolved {| blob := [137; 80; 78; 71];
                            content_disposition := None |});
     get_history := fun stored =>
       (stored, Resolved {| history_success := true; history_data := [] |}) |}.

Definition pdf : File :=
  {| name := "notes.pdf"; type := "application/pdf"; size := 4096 |}.

Definition huge_pdf : File :=
  {| name := "atlas.pdf"; type := "application/pdf";
     size := 11 * 1024 * 1024 |}.

Definition huge_png : File :=
  {| name := "scan.png"; type := "image/png"; size := 10 * 1024 * 1024 + 1 |}.

Definition jpeg_at_limit : File :=
  {| name := "scan.jpg"; type := "image/jpeg"; size := 10 * 1024 * 1024 |}.

Definition simulated_idle : Simulated.State :=
  {| Simulated.originalImage := None; Simulated.enhancedImage := None;
     Simulated.isProcessing := false; Simulated.uploadedFile := None |}.

Definition backed_idle : Backed.World (list File) :=
  {| Backed.ui :=
       {| Backed.originalImage := None; Backed.enhancedImage := None;
          Backed.isProcessing := false; Backed.isUploading := false;
          Backed.uploadedFile := None; Backed.currentImageId := None |};
     Backed.backend := [] |}.

End Sample.

(** ** Rows of the history and worlds to click in *)

Module SampleHistory.

Import Browser Api.

Definition processing_job : Job :=
  {| id := "7f3a";
     originalImageName := "knee_mri.png";
     enhancedImageName := None;
     uploadDate := "2025-02-01T08:00:00Z";
     enhancementType := "Grayscale + Sharpening";
     status := "Processing";
     processingTime := 0 |}.

Definition completed_job : Job :=
  {| id := "9c1e";
     originalImageName := "chest_xray_002.jpg";
     enhancedImageName := None;
     uploadDate := "2025-02-01T09:00:00Z";
     enhancementType := "Grayscale + Sharpening";
     status := "Completed";
     processingTime := 2.1 |}.

Definition idle : History.World (list File) :=
  {| History.ui := {| History.history := [processing_job; completed_job];
                      History.loading := false |};
     History.backend := [] |}.

(** The upload view after [scan.jpg] was uploaded and enhanced. *)
Definition enhanced_upload : Backed.World (list File) :=
  {| Backed.ui :=
       {| Backed.originalImage := Some (readAsDataURL Sample.jpeg_at_limit);
          Backed.enhancedImage :=
            Some "http://localhost:8001/api/images/enhanced/scan.jpg";
          Backed.isProcessing := false; Backed.isUploading := false;
          Backed.uploadedFile := Some Sample.jpeg_at_limit;
          Backed.currentImageId := Some "scan.jpg" |};
     Backed.backend := [Sample.jpeg_at_limit] |}.

End SampleHistory.

(** ** A canvas to run the enhancement on *)

Module SampleCanvas.

Import Browser.

(** A JPEG upload that decodes to the 1x1 image (200, 100, 50, 255). *)
Definition jpeg_url : DataURL :=
  {| mediaType := "image/jpeg"; content := file_bytes Sample.jpeg_at_limit |}.

Definition decode (src : DataURL) : option ImageData :=
  Some {| width := 1; height := 1; data := [200; 100; 50; 255] |}.

Definition encoder_available (type : string) : bool :=
  String.eqb type "image/jpeg".

Definition loaded : Simulated.State :=
  {| Simulated.originalImage := Some jpeg_url;
     Simulated.enhancedImage := None;
     Simulated.isProcessing := false;
     Simulated.uploadedFile := Some Sample.jpeg_at_limit |}.

End SampleCanvas.

(** ** The upload claims read literally *)

Module Literal.

Import Browser Api Handler.

(** Every upload above the size limit is reported as too large, whatever
    its type. *)
Definition oversize_always_too_large : Prop :=
  ∀ (file : File) (st : Simulated.State),
    size file > 10 * 1024 * 1024 →
    effects (Simulated.handleFileSelect (Some file)) st
    = [toast Simulated.toast_too_large].

(** [filename] is [enhanced_<stem>.png] for a stem taken from the front of
    the original file name (the whole name, or the name without its
    extension). *)
Definition derived_from (original filename : string) : Prop :=
  ∃ stem,
    String.prefix stem original = true
    ∧ filename = "enhanced_" +:+ stem +:+ ".png".

(** Every download of the enhanced version of an uploaded file suggests a
    name derived from that file's name. *)
Definition download_name_always_derived : Prop :=
  ∀ (B : Type) (srv : Server B) (w : Backed.World B) (now : Z)
    (file : File) (id : string) (r : DownloadResponse),
    Backed.uploadedFile (Backed.ui w) = Some file →
    Backed.currentImageId (Backed.ui w) = Some id →
    id ≠ EmptyString →
    snd (get_download srv (Backed.backend w) id) = Resolved r →
    ∃ filename,
      downloads (effects (Backed.downloadEnhancedImage srv now) w)
      = [filename]
      ∧ derived_from (name file) filename.

(** Every mock upload answers with an id of exactly nine characters. *)
Definition upload_id_has_nine_characters : Prop :=
  ∀ (formData : Mock.FormData) (random : Mock.Draw),
    ∃ r, Mock.uploadImage formData random = Resolved r
         ∧ upload_success r = true
         ∧ String.length (imageId r) = 9%nat.

End Literal.

(** ** The rest of the simulated component *)

Module SimulatedFlow.

Import Browser Handler Simulated.
Local Open Scope handler_scope.

(** The anchor element [downloadEnhancedImage] builds and clicks. *)
Record Link := { href : DataURL; download : string }.

Definition toast_download_started : Toast :=
  {| title := "Download started";
     description := "Enhanced image is being downloaded.";
     variant := None |}.

(** [downloadEnhancedImage]; [now] is the value of [Date.now()], and the
    value returned is the link that was clicked, if any. *)
Definition downloadEnhancedImage (now : Z) : Handler State (option Link) :=
  let* enhanced := gets enhancedImage in
  match enhanced with
  | None => ret None
  | Some url =>
      let link :=
        {| href := url;
           download :=
             "enhanced_medical_image_" +:+ Z_to_string now +:+ ".png" |} in
      emit (toast toast_download_started) >>>
      ret (Some link)
  end.

(** The render conditions of the two buttons:
    [disabled={isProcessing}] and [disabled={!enhancedImage}]. *)
Definition enhance_disabled (st : State) : bool := isProcessing st.

Definition download_disabled (st : State) : bool :=
  match enhancedImage st with
  | None => true
  | Some _ => false
  end.

(** What the user can still do while the Enhance button is disabled:
    pick a file, or click Download. *)
Inductive Action :=
| select_file (file : option File)
| click_download (now : Z).

Definition act (a : Action) : Handler State unit :=
  match a with
  | select_file file => handleFileSelect file
  | click_download now => let* _ := downloadEnhancedImage now in ret tt
  end.

Fixpoint acts (l : list Action) : Handler State unit :=
  match l with
  | [] => ret tt
  | a :: l' => act a >>> acts l'
  end.

Section Canvas.

Variable decode : DataURL -> option ImageData.
Variable encoder_available : string -> bool.

(** [simulateEnhancement] up to [setTimeout]: the guard and
    [setIsProcessing(true)].  The value is the [originalImage] the timeout
    callback closes over. *)
Definition enhancement_started : Handler State (option DataURL) :=
  let* original := gets originalImage in
  match original with
  | None => ret None
  | Some src => setIsProcessing true >>> ret (Some src)
  end.

(** The timeout callback with [img.onload], for the [originalImage] it
    closed over; other handlers may have run since the click. *)
Definition enhancement_finished (src : DataURL) : Handler State unit :=
  match decode src with
  | None => ret tt
  | Some img =>
      match Enhancement.pixel_pass (data img) with
      | None => ret tt
      | Some out =>
          let imageData :=
            {| width := width img; height := height img; data := out |} in
          let enhancedDataUrl :=
            toDataURL encoder_available "image/png" imageData in
          setEnhancedImage (Some enhancedDataUrl) >>>
          setIsProcessing false >>>
          emit (toast toast_enhanced)
      end
  end.

End Canvas.

End SimulatedFlow.

(** ** The rest of the backend-connected component *)

Module BackedFlow.

Import Browser Api Handler Backed.
Local Open Scope handler_scope.

(** [response.data] of [POST /images/{id}/enhance]; a field the answer
    lacks reads [undefined]. *)
Record EnhanceData :=
  { success : bool;
    processingTime : option float;
    enhancementType : option string }.

(** A value spliced into a template literal. *)
Definition template (s : option string) : string :=
  match s with
  | Some x => x
  | None => "undefined"
  end.

Definition toast_no_image : Toast :=
  {| title := "No image to enhance";
     description := "Please upload an image first.";
     variant := Some "destructive" |}.

Definition toast_enhancement_completed
    (seconds : string) (type : option string) : Toast :=
  {| title := "Enhancement completed";
     description :=
       "Image enhanced in " +:+ seconds +:+ "s using " +:+ template type;
     variant := None |}.

Definition toast_enhancement_failed (detail : option string) : Toast :=
  {| title := "Enhancement failed";
     description := or_else detail "Failed to enhance image";
     variant := Some "destructive" |}.

Section WithServer.

Context {B : Type}.
Variable srv : Server B.

(** The enhance endpoint of the backend. *)
Variable post_enhance : B -> string -> B * Outcome EnhanceData.

(** [Number.prototype.toFixed(1)] *)
Variable toFixed1 : float -> string.

Definition setIsProcessing (v : bool) : Handler (World B) unit :=
  update (fun s => {| originalImage := originalImage s;
                      enhancedImage := enhancedImage s;
                      isProcessing := v;
                      isUploading := isUploading s;
                      uploadedFile := uploadedFile s;
                      currentImageId := currentImageId s |}).

(** [await axios.post(`${API}/images/${currentImageId}/enhance`)] *)
Definition axios_post_enhance (id : string)
  : Handler (World B) (Outcome EnhanceData) :=
  fun w =>
    let '(b, r) := post_enhance (backend w) id in
    (r, {| ui := ui w; backend := b |},
     [request "POST" (API srv +:+ "/images/" +:+ id +:+ "/enhance") None]).

(** [enhanceImage] up to its [await]: the guard, [setIsProcessing(true)]
    and the request.  The value is the [currentImageId] the rest of the
    handler closes over, with the answer it is waiting for. *)
Definition enhanceImage_started
  : Handler (World B) (option (string * Outcome EnhanceData)) :=
  let* current := gets (fun w => currentImageId (ui w)) in
  match truthy current with
  | None => emit (toast toast_no_image) >>> ret None
  | Some id =>
      setIsProcessing true >>>
      let* response := axios_post_enhance id in
      ret (Some (id, response))
  end.

(** [enhanceImage] from the answer on: the rest of [try], [catch] and
    [finally].  Calling [toFixed] on a missing [processingTime] throws, and
    the [catch] block takes over with an error that has no response. *)
Definition enhanceImage_settled
    (id : string) (response : Outcome EnhanceData) : Handler (World B) unit :=
  match response with
  | Resolved data =>
      if success data then
        setEnhancedImage (Some (API srv +:+ "/images/enhanced/" +:+ id)) >>>
        match processingTime data with
        | Some seconds =>
            emit (toast (toast_enhancement_completed
                           (toFixed1 seconds) (enhancementType data)))
        | None =>
            emit (console_error "Enhancement error:") >>>
            emit (toast (toast_enhancement_failed None))
        end
      else ret tt
  | Rejected detail =>
      emit (console_error "Enhancement error:") >>>
      emit (toast (toast_enhancement_failed detail))
  end >>>
  setIsProcessing false.

(** [enhanceImage], when nothing else runs while it waits. *)
Definition enhanceImage : Handler (World B) unit :=
  let* started := enhanceImage_started in
  match started with
  | None => ret tt
  | Some (id, response) => enhanceImage_settled id response
  end.

End WithServer.

(** The render conditions of the three buttons: [disabled={isUploading}],
    [disabled={isProcessing || isUploading || !currentImageId}] and
    [disabled={!enhancedImage}]. *)
Definition select_disabled (st : State) : bool := isUploading st.

Definition enhance_disabled (st : State) : bool :=
  (isProcessing st || isUploading st
   || match truthy (currentImageId st) with None => true | Some _ => false end)%bool.

Definition download_disabled (st : State) : bool :=
  match truthy (enhancedImage st) with
  | None => true
  | Some _ => false
  end.

End BackedFlow.

(** ** The status badge of a history row *)

Module Badge.

Import Browser Api.

(** A rendered icon: the component and its [className]. *)
Record Icon := { component : string; className : string }.

(** [getStatusIcon] *)
Definition getStatusIcon (status : string) : Icon :=
  if String.eqb status "Completed" then
    {| component := "CheckCircle"; className := "w-3 h-3 mr-1 text-green-600" |}
  else if String.eqb status "Processing" then
    {| component := "Loader2";
       className := "w-3 h-3 mr-1 animate-spin text-blue-600" |}
  else if String.eqb status "Failed" then
    {| component := "AlertCircle"; className := "w-3 h-3 mr-1 text-red-600" |}
  else
    {| component := "Clock"; className := "w-3 h-3 mr-1 text-gray-600" |}.

(** [getStatusColor] *)
Definition getStatusColor (status : string) : string :=
  if String.eqb status "Completed" then
    "text-green-600 border-green-200 bg-green-50"
  else if String.eqb status "Processing" then
    "text-blue-600 border-blue-200 bg-blue-50"
  else if String.eqb status "Failed" then
    "text-red-600 border-red-200 bg-red-50"
  else
    "text-gray-600 border-gray-200 bg-gray-50".

(** The classes of a badge in the tone [t]. *)
Definition badge_classes (t : string) : string :=
  "text-" +:+ t +:+ "-600 border-" +:+ t +:+ "-200 bg-" +:+ t +:+ "-50".

(** [s] ends with [suffix]. *)
Definition ends_with (suffix s : string) : Prop :=
  ∃ front, s = front +:+ suffix.

End Badge.

(** ** Names that can be sent in a header *)

Module Names.

Import Browser.

(** No double quote and no line terminator among the characters. *)
Fixpoint clean (s : string) : bool :=
  match s with
  | EmptyString => true
  | String c s' =>
      (negb (Ascii.eqb c double_quote) && negb (is_line_terminator c)
       && clean s')%bool
  end.

(** The name between double quotes. *)
Definition quoted (s : string) : string :=
  String double_quote (s +:+ String double_quote EmptyString).

End Names.

(** ** More instances to run the handlers on *)

Module SampleFlow.

Import Browser Api.

(** An enhance endpoint that accepts every id and reports 1.5 seconds. *)
Definition post_enhance (stored : list File) (id : string)
  : list File * Outcome BackedFlow.EnhanceData :=
  (stored,
   Resolved {| BackedFlow.success := true;
               BackedFlow.processingTime := Some 1.5%float;
               BackedFlow.enhancementType := Some "Grayscale + Sharpening" |}).

(** [toFixed(1)] for the non-negative finite doubles below 2^53: the
    nearest multiple of one tenth, the larger one at a tie. *)
Definition toFixed1 (x : float) : string :=
  match Prim2SF x with
  | S754_finite false m e =>
      let tenths :=
        if 0 <=? e then 10 * Z.pos m * 2 ^ e
        else
          let d := 2 ^ (- e) in
          let q := (10 * Z.pos m) / d in
          if d <=? 2 * ((10 * Z.pos m) mod d) then q + 1 else q in
      Z_to_string (tenths / 10) +:+ "." +:+ Z_to_string (tenths mod 10)
  | _ => "0.0"
  end.

(** A backend that is down: every request is rejected. *)
Definition failing_server : Server (list File) :=
  {| BACKEND_URL := "http://localhost:8001";
     post_upload := fun stored file => (stored, Rejected None);
     get_download := fun stored id => (stored, Rejected None);
     get_history := fun stored => (stored, Rejected None) |}.

(** A canvas whose images never load. *)
Definition never_loads (src : DataURL) : option ImageData := None.

(** A backend that answers downloads with a quoted file name. *)
Definition quoting_server : Server (list File) :=
  {| BACKEND_URL := "http://localhost:8001";
     post_upload := post_upload Sample.server;
     get_download := fun stored id =>
       (stored,
        Resolved {| blob := [137; 80; 78; 71];
                    content_disposition :=
                      Some ("attachment; filename="
                            +:+ Names.quoted "enhanced_scan.png") |});
     get_history := fun stored => (stored, Rejected None) |}.

(** The upload view right after [scan.jpg] was uploaded. *)
Definition uploaded : Backed.World (list File) :=
  {| Backed.ui :=
       {| Backed.originalImage := Some (readAsDataURL Sample.jpeg_at_limit);
          Backed.enhancedImage := None;
          Backed.isProcessing := false; Backed.isUploading := false;
          Backed.uploadedFile := Some Sample.jpeg_at_limit;
          Backed.currentImageId := Some "scan.jpg" |};
     Backed.backend := [Sample.jpeg_at_limit] |}.

Definition small_png : File :=
  {| name := "knee.png"; type := "image/png"; size := 2048 |}.

End SampleFlow.

(** ** The selection handler of the backend-connected component, cut at
    its await

    Two events follow a selection that passes the checks: the preview
    reader's [onload] and the answer to the upload.  They can come in
    either order. *)

Module BackedSelect.

Import Browser Api Handler Backed.
Local Open Scope handler_scope.

(** Which of the two events comes first. *)
Inductive Order := preview_first | answer_first.

Section WithServer.

Context {B : Type}.
Variable srv : Server B.

(** [handleFileSelect] up to its [await]: the checks, the setters, the
    preview reader started and the upload sent.  The value is the file
    with the answer the rest of the handler waits for, or nothing when
    there is no file or the file was refused. *)
Definition handleFileSelect_started (file0 : option File)
  : Handler (World B) (option (File * Outcome UploadResponse)) :=
  match file0 with
  | None => ret None
  | Some file =>
      if negb (includes validTypes (type file)) then
        emit (toast toast_invalid_type) >>> ret None
      else if size file >? maxSize then
        emit (toast toast_too_large) >>> ret None
      else
        setUploadedFile (Some file) >>>
        setIsUploading true >>>
        setEnhancedImage None >>>
        setCurrentImageId None >>>
        let* response := axios_post_upload srv file in
        ret (Some (file, response))
  end.

(** [reader.onload] of the preview reader. *)
Definition preview_loaded (file : File) : Handler (World B) unit :=
  setOriginalImage (Some (readAsDataURL file)).

(** [handleFileSelect] from the answer on: the rest of [try], [catch] and
    [finally]. *)
Definition handleFileSelect_settled (response : Outcome UploadResponse)
  : Handler (World B) unit :=
  match response with
  | Resolved data =>
      if upload_success data then
        setCurrentImageId (Some (imageId data)) >>>
        emit (toast (toast_upload_successful (upload_message data)))
      else ret tt
  | Rejected detail =>
      emit (console_error "Upload error:") >>>
      emit (toast (toast_upload_failed detail)) >>>
      setOriginalImage None >>>
      setUploadedFile None
  end >>>
  setIsUploading false.

(** The selection with its two events in the order [o], nothing else
    running in between. *)
Definition handleFileSelect_in (o : Order) (file0 : option File)
  : Handler (World B) unit :=
  let* started := handleFileSelect_started file0 in
  match started with
  | None => ret tt
  | Some (file, response) =>
      match o with
      | preview_first =>
          preview_loaded file >>> handleFileSelect_settled response
      | answer_first =>
          handleFileSelect_settled response >>> preview_loaded file
      end
  end.

End WithServer.

End BackedSelect.

(** ** The pixels of an encoded canvas *)

Module Bitmap.

Import Browser.

(** The pixels read back from a canvas on which the bytes [d] were put,
    when the canvas gives [back c a] for a colour byte [c] written with
    the alpha [a].  Alpha itself is kept. *)
Fixpoint read_back (back : Z -> Z -> Z) (d : list Z) : list Z :=
  match d with
  | r :: g :: b :: a :: rest =>
      back r a :: back g a :: back b a :: a :: read_back back rest
  | tail => tail
  end.

(** The pixels of the image that a [data:] URL made by [toDataURL]
    encodes. *)
Definition png_pixels (back : Z -> Z -> Z) (u : DataURL) : option (list Z) :=
  match content u with
  | canvas_pixels img => Some (read_back back (data img))
  | file_bytes _ => None
  end.

(** Every pixel has the alpha 255. *)
Definition opaque (d : list Z) : Prop :=
  ∀ (q : nat) (a : Z), d !! (4 * q + 3)%nat = Some a → a = 255.

(** A canvas that stores [c * a / 255] rounded to the nearest integer and
    gives back the stored value times [255 / a], rounded again; a pixel
    of alpha 0 comes back black. *)
Definition premultiplied (c a : Z) : Z :=
  if a =? 0 then 0 else ((c * a + 127) / 255 * 255 + a / 2) / a.

End Bitmap.

(** ** What a header says about the file name *)

Module Header.

Import Browser.

(** [header] reads [pre], then [filename=], then [rest], and [rest]
    starts with a character that is not a line terminator. *)
Definition names_file (header pre rest : string) : Prop :=
  header = pre +:+ ("filename=" +:+ rest) ∧ dots rest ≠ EmptyString.

(** The same, at the first place of the header where it is so. *)
Definition first_names_file (header pre rest : string) : Prop :=
  names_file header pre rest
  ∧ ∀ pre' rest', names_file header pre' rest' →
      (String.length pre ≤ String.length pre')%nat.

(** The header is missing, empty, or has no such place. *)
Definition gives_no_name (contentDisposition : option string) : Prop :=
  ∀ header pre rest,
    contentDisposition = Some header → ¬ names_file header pre rest.

(** The character [c] does not occur in [s]. *)
Fixpoint lacks (c : Ascii.ascii) (s : string) : bool :=
  match s with
  | EmptyString => true
  | String x s' => (negb (Ascii.eqb x c) && lacks c s')%bool
  end.

End Header.

(** ** The download and history claims read literally *)

Module LiteralAnswers.

Import Browser Api Handler.

(** Every upload of an accepted type within the size limit succeeds: the
    component ends with the id of the stored image. *)
Definition accepted_always_succeeds : Prop :=
  ∀ (B : Type) (srv : Server B) (w : Backed.World B) (file : File),
    type file ∈ ["image/jpeg"; "image/jpg"; "image/png"] →
    size file <= 10 * 1024 * 1024 →
    ∃ id,
      Backed.currentImageId
        (Backed.ui (final (Backed.handleFileSelect srv (Some file)) w))
      = Some id.

(** Every download of a completed job from the history suggests a name
    derived from the original's, whatever the response says, when the
    record names no enhanced file. *)
Definition history_name_derived_whatever_the_header : Prop :=
  ∀ (B : Type) (srv : Server B) (w : History.World B)
    (item : Job) (r : DownloadResponse),
    status item = "Completed" →
    enhancedImageName item = None →
    snd (get_download srv (History.backend w) (id item)) = Resolved r →
    ∃ filename,
      downloads (effects (History.handleDownload srv item) w) = [filename]
      ∧ Literal.derived_from (originalImageName item) filename.

(** The same whatever the record names, when the response has no
    header. *)
Definition history_name_derived_whatever_the_record : Prop :=
  ∀ (B : Type) (srv : Server B) (w : History.World B)
    (item : Job) (r : DownloadResponse),
    status item = "Completed" →
    snd (get_download srv (History.backend w) (id item)) = Resolved r →
    content_disposition r = None →
    ∃ filename,
      downloads (effects (History.handleDownload srv item) w) = [filename]
      ∧ Literal.derived_from (originalImageName item) filename.

(** Every upload through the mock API is listed by the history that is
    asked for next. *)
Definition uploads_enter_history : Prop :=
  ∀ (formData : Mock.FormData) (random : Mock.Draw)
    (r : UploadResponse) (h : HistoryResponse),
    snd (Mock.run Mock.mockEnhancementHistory
           [Mock.call_uploadImage formData random;
            Mock.call_getEnhancementHistory])
    = [Mock.reply_upload (Resolved r); Mock.reply_history (Resolved h)] →
    ∃ j, j ∈ history_data h ∧ id j = imageId r.

(** The history view lists what it loaded most recent first, whatever
    order the backend answered in. *)
Definition history_shown_most_recent_first : Prop :=
  ∀ (B : Type) (srv : Server B) (w : History.World B) (r : HistoryResponse),
    snd (get_history srv (History.backend w)) = Resolved r →
    history_success r = true →
    Mock.most_recent_first
      (History.history (History.ui (final (History.loadHistory srv) w))).

End LiteralAnswers.

(** ** Backends that name the download or order the history their way *)

Module SampleAnswers.

Import Browser Api.

Definition blob_of_png : Blob := [137; 80; 78; 71].

(** A backend that sends the given [content-disposition] header with
    every download and lists the mock history oldest first. *)
Definition server_sending (header : string) : Server (list File) :=
  {| BACKEND_URL := "http://localhost:8001";
     post_upload := post_upload Sample.server;
     get_download := fun stored id =>
       (stored, Resolved {| blob := blob_of_png;
                            content_disposition := Some header |});
     get_history := fun stored =>
       (stored,
        Resolved {| history_success := true;
                    history_data := rev Mock.mockEnhancementHistory |}) |}.

(** The stored file is named after the job, as the backend stores it. *)
Definition stored_name_server : Server (list File) :=
  server_sending "attachment; filename=9c1e.png".

Definition inline_server : Server (list File) :=
  server_sending "inline; filename=a.png".

Definition bare_inline_server : Server (list File) :=
  server_sending "inline".

(** A completed job whose record names the enhanced file after the job. *)
Definition named_job : Job :=
  {| id := "9c1e";
     originalImageName := "chest_xray_002.jpg";
     enhancedImageName := Some "9c1e.png";
     uploadDate := "2025-02-01T09:00:00Z";
     enhancementType := "Grayscale + Sharpening";
     status := "Completed";
     processingTime := 2.1 |}.

(** An upload view in which an earlier enhancement is still waiting for
    its answer. *)
Definition still_processing : Backed.World (list File) :=
  {| Backed.ui :=
       {| Backed.originalImage := Some (readAsDataURL Sample.jpeg_at_limit);
          Backed.enhancedImage := None;
          Backed.isProcessing := true; Backed.isUploading := false;
          Backed.uploadedFile := Some Sample.jpeg_at_limit;
          Backed.currentImageId := Some "scan.jpg" |};
     Backed.backend := [Sample.jpeg_at_limit] |}.

End SampleAnswers.

(** * Properties *)

(** ** The pixel pass *)

Section PixelPass.

Import JS Enhancement.

Implicit Types (data out : list Z) (i j k : nat).

Lemma length_pixel_step data i : length (pixel_step data i) = length data.
Proof. unfold pixel_step, set. by rewrite !length_insert. Qed.

Lemma lookup_pixel_step_other data i j :
  (j < i ∨ i + 3 ≤ j)%nat → pixel_step data i !! j = data !! j.
Proof.
  intros Hj. unfold pixel_step, set.
  rewrite !list_lookup_insert_ne by lia. done.
Qed.

Lemma lookup_pixel_step_colour data i c :
  (c < 3)%nat → (i + c < length data)%nat →
  pixel_step data i !! (i + c)%nat = Some (stored data i).
Proof.
  intros Hc Hlen. unfold pixel_step, set, stored.
  assert (c = 0 ∨ c = 1 ∨ c = 2)%nat as [-> | [-> | ->]] by lia.
  - rewrite !list_lookup_insert_ne by lia.
    replace (i + 0)%nat with i by lia.
    by rewrite list_lookup_insert_eq by lia.
  - rewrite list_lookup_insert_ne by lia.
    by rewrite list_lookup_insert_eq by (rewrite ?length_insert; lia).
  - by rewrite list_lookup_insert_eq by (rewrite ?length_insert; lia).
Qed.

Lemma get_pixel_step_later data i j :
  (i + 3 ≤ j)%nat → get (pixel_step data i) j = get data j.
Proof.
  intros. unfold get. by rewrite lookup_pixel_step_other by lia.
Qed.

Lemma stored_pixel_step_later data i p :
  (i + 4 ≤ p)%nat → stored (pixel_step data i) p = stored data p.
Proof.
  intros. unfold stored. by rewrite !get_pixel_step_later by lia.
Qed.

(** The loop from [i] with enough fuel terminates; it leaves what is below
    [i] alone, gives the three colour channels of every later pixel the
    value computed from that pixel's input, and keeps every fourth byte. *)
Lemma pixel_loop_spec fuel : ∀ i data,
  (length data ≤ i + 4 * fuel)%nat →
  ∃ out,
    pixel_loop fuel i data = Some out
    ∧ length out = length data
    ∧ (∀ j, (j < i)%nat → out !! j = data !! j)
    ∧ (∀ q c, (c < 3)%nat → (i + 4 * q + c < length data)%nat →
         out !! (i + 4 * q + c)%nat = Some (stored data (i + 4 * q)))
    ∧ (∀ q, out !! (i + 4 * q + 3)%nat = data !! (i + 4 * q + 3)%nat).
Proof.
  induction fuel as [|fuel IH]; intros i data Hfuel.
  - exists data. cbn [pixel_loop].
    destruct (decide (i < length data)%nat); [lia|].
    split; [done|]. split; [done|]. split; [done|]. split; [|done].
    intros; lia.
  - cbn [pixel_loop]. destruct (decide (i < length data)%nat) as [Hi|Hi].
    + destruct (IH (i + 4)%nat (pixel_step data i)) as (out & Hrun & Hlen & Hlow & Hcol & Halpha).
      { rewrite length_pixel_step. lia. }
      exists out. rewrite length_pixel_step in Hlen, Hcol.
      split; [done|]. split; [done|]. split; [|split].
      * intros j Hj. rewrite Hlow by lia. apply lookup_pixel_step_other. lia.
      * intros q c Hc Hin. destruct q as [|q].
        -- replace (i + 4 * 0 + c)%nat with (i + c)%nat by lia.
           replace (i + 4 * 0)%nat with i by lia.
           rewrite Hlow by lia. apply lookup_pixel_step_colour; lia.
        -- replace (i + 4 * S q + c)%nat with (i + 4 + 4 * q + c)%nat by lia.
           replace (i + 4 * S q)%nat with (i + 4 + 4 * q)%nat by lia.
           rewrite Hcol by lia. f_equal. apply stored_pixel_step_later. lia.
      * intros q. destruct q as [|q].
        -- rewrite Hlow by lia. apply lookup_pixel_step_other. lia.
        -- replace (i + 4 * S q + 3)%nat with (i + 4 + 4 * q + 3)%nat by lia.
           rewrite Halpha. apply lookup_pixel_step_other. lia.
    + exists data.
      split; [done|]. split; [done|]. split; [done|]. split; [|done].
      intros; lia.
Qed.

(** The pass always finishes, on a buffer of any length. *)
Lemma pixel_pass_total data : ∃ out, pixel_pass data = Some out.
Proof.
  destruct (pixel_loop_spec (length data) 0%nat data) as (out & H & _); [lia|].
  by exists out.
Qed.

(** Pixel [k] of the output, for a buffer that holds pixel [k] whole. *)
Lemma pixel_pass_pixel data k r g b a :
  data !! (4 * k)%nat = Some r →
  data !! (4 * k + 1)%nat = Some g →
  data !! (4 * k + 2)%nat = Some b →
  data !! (4 * k + 3)%nat = Some a →
  ∃ out,
    pixel_pass data = Some out
    ∧ length out = length data
    ∧ out !! (4 * k)%nat = Some (channel r g b)
    ∧ out !! (4 * k + 1)%nat = Some (channel r g b)
    ∧ out !! (4 * k + 2)%nat = Some (channel r g b)
    ∧ out !! (4 * k + 3)%nat = Some a.
Proof.
  intros Hr Hg Hb Ha.
  destruct (pixel_loop_spec (length data) 0%nat data)
    as (out & Hrun & Hlen & _ & Hcol & Halpha); [lia|].
  exists out. split; [done|]. split; [done|].
  assert (4 * k + 3 < length data)%nat as Hin by (by eapply lookup_lt_Some).
  assert (stored data (4 * k) = channel r g b) as Hst.
  { unfold stored, channel, get. by rewrite Hr, Hg, Hb. }
  assert (∀ c, (c < 3)%nat →
            out !! (4 * k + c)%nat = Some (channel r g b)) as Hch.
  { intros c Hc. specialize (Hcol k c Hc).
    rewrite !Nat.add_0_l in Hcol. rewrite Hcol by lia. by rewrite Hst. }
  specialize (Halpha k). rewrite !Nat.add_0_l in Halpha.
  pose proof (Hch 0%nat) as H0. rewrite Nat.add_0_r in H0.
  rewrite H0, (Hch 1%nat), (Hch 2%nat), Halpha by lia. done.
Qed.

Lemma digits2_pos_bound (m : positive) : Z.pos m < 2 ^ Z.pos (digits2_pos m).
Proof.
  induction m as [m IH|m IH|]; cbn [digits2_pos];
    rewrite ?Pos2Z.inj_succ, ?Z.pow_succ_r by lia; lia.
Qed.

(** The mantissa of a double has at most 53 bits. *)
Lemma valid_mantissa_bound (s : bool) (m : positive) (e : Z) :
  valid_binary (S754_finite s m e) = true → Z.pos m < 2 ^ 53.
Proof.
  cbn [SpecFloat.valid_binary]. unfold bounded, canonical_mantissa, fexp.
  intros [Hc _]%andb_prop. apply Z.eqb_eq in Hc.
  pose proof (digits2_pos_bound m) as Hm.
  assert (Z.pos (digits2_pos m) <= 53) as Hd by (unfold prec in Hc; lia).
  eapply Z.lt_le_trans; [exact Hm|].
  apply Z.pow_le_mono_r; lia.
Qed.

(** Whatever Number is stored, the array holds a byte. *)
Lemma ToUint8Clamp_range (x : float) : 0 <= ToUint8Clamp x <= 255.
Proof.
  unfold ToUint8Clamp.
  destruct (PrimFloat.is_nan x); [lia|].
  destruct (PrimFloat.leb x PrimFloat.zero) eqn:Hpos; [lia|].
  destruct (PrimFloat.leb (Number_of_Z 255) x) eqn:Htop; [lia|].
  pose proof (Prim2SF_valid x) as Hvalid.
  rewrite FloatAxioms.leb_spec in Hpos, Htop.
  destruct (Prim2SF x) as [| | |s m e]; try lia.
  apply valid_mantissa_bound in Hvalid.
  destruct s; [discriminate Hpos|].
  set (top := Prim2SF (Number_of_Z 255)) in Htop.
  vm_compute in top. subst top.
  unfold SFleb, SFcompare in Htop.
  assert (e < 0 ∧ Z.pos m < 255 * 2 ^ (- e)) as [He Hm].
  { destruct (Z.compare_spec (-45) e) as [<- | Hlt | Hgt];
      try discriminate Htop.
    - split; [lia|]. rewrite Pos.compare_cont_spec in Htop.
      cbn [Pos.switch_Eq] in Htop.
      destruct (Pos.compare_spec 8972014882652160 m) as [|Hlt|Hgt];
        try discriminate Htop.
      apply Pos2Z.pos_lt_pos in Hgt. clear - Hgt.
      change (2 ^ (- (-45))) with 35184372088832. lia.
    - split; [lia|].
      assert (2 ^ 46 <= 2 ^ (- e)) by (apply Z.pow_le_mono_r; lia).
      lia. }
  destruct (Z.leb_spec 0 e) as [|_]; [lia|].
  assert (0 < 2 ^ (- e)) as Hd by (apply Z.pow_pos_nonneg; lia).
  assert (0 <= Z.pos m / 2 ^ (- e) < 255) as Hf.
  { split; [apply Z.div_pos; lia|]. apply Z.div_lt_upper_bound; lia. }
  cbv zeta.
  generalize dependent (Z.pos m / 2 ^ (- e)). intros f Hf.
  generalize (2 * (Z.pos m mod 2 ^ (- e))). intros r2.
  clear - Hf.
  destruct (2 ^ (- e) <? r2); [lia|].
  destruct (r2 <? 2 ^ (- e)); [lia|].
  destruct (Z.even f); lia.
Qed.

Lemma pixel_step_bytes data i :
  Forall is_byte data → Forall is_byte (pixel_step data i).
Proof.
  intros H. unfold pixel_step, set.
  do 3 (apply Forall_insert; [|apply ToUint8Clamp_range]). done.
Qed.

Lemma pixel_loop_bytes fuel : ∀ i data out,
  Forall is_byte data → pixel_loop fuel i data = Some out → Forall is_byte out.
Proof.
  induction fuel as [|fuel IH]; intros i data out Hdata; cbn [pixel_loop];
    destruct (decide (i < length data)%nat); intros Hrun; simplify_eq; try done.
  eapply IH; [|exact Hrun]. by apply pixel_step_bytes.
Qed.

(** The pass turns a buffer of bytes into a buffer of bytes. *)
Lemma pixel_pass_bytes data out :
  Forall is_byte data → pixel_pass data = Some out → Forall is_byte out.
Proof. apply pixel_loop_bytes. Qed.

End PixelPass.

(** ** The enhancement transform, pixel by pixel *)

Section Transform.

Import JS Enhancement.

(** C1, as the code has it.  For every pixel (R, G, B, A) of the input
    buffer the pass terminates and the output pixel is (c, c, c, A), where
    c is E = min(255, L * 1.2), L = 0.299 R + 0.587 G + 0.114 B (in double
    arithmetic), stored as a byte: rounded to the nearest integer, ties to
    even.  The alpha byte is the input's. *)
Theorem enhancement_pixel_map (data : list Z) (k : nat) (r g b a : Z) :
  data !! (4 * k)%nat = Some r →
  data !! (4 * k + 1)%nat = Some g →
  data !! (4 * k + 2)%nat = Some b →
  data !! (4 * k + 3)%nat = Some a →
  let R := Number_of_Z r in
  let G := Number_of_Z g in
  let B := Number_of_Z b in
  let L := (R * 0.299 + G * 0.587 + B * 0.114)%float in
  let E := Math_min (Number_of_Z 255) (L * 1.2)%float in
  ∃ out,
    pixel_pass data = Some out
    ∧ length out = length data
    ∧ out !! (4 * k)%nat = Some (ToUint8Clamp E)
    ∧ out !! (4 * k + 1)%nat = Some (ToUint8Clamp E)
    ∧ out !! (4 * k + 2)%nat = Some (ToUint8Clamp E)
    ∧ out !! (4 * k + 3)%nat = Some a
    ∧ is_byte (ToUint8Clamp E).
Proof.
  intros Hr Hg Hb Ha. cbv zeta.
  destruct (pixel_pass_pixel data k r g b a Hr Hg Hb Ha)
    as (out & Hrun & Hlen & H0 & H1 & H2 & H3).
  exists out. repeat (split; [assumption|]).
  apply ToUint8Clamp_range.
Qed.

Lemma enhancement_pixel_map_witness :
  ∃ out,
    pixel_pass [200; 100; 50; 255; 10; 20; 30; 40] = Some out
    ∧ length out = 8%nat
    ∧ out !! 4%nat = Some 22
    ∧ out !! 5%nat = Some 22
    ∧ out !! 6%nat = Some 22
    ∧ out !! 7%nat = Some 40
    ∧ is_byte 22.
Proof.
  exact (enhancement_pixel_map [200; 100; 50; 255; 10; 20; 30; 40] 1
           10 20 30 40 eq_refl eq_refl eq_refl eq_refl).
Defined.

(** C1 read literally fails: the colour channels hold a byte, not the
    Number E.  For the pixel (200, 100, 50, 255) E is 149.03999999999999
    and the byte stored is 149. *)
Lemma enhancement_output_is_not_E :
  ¬ outputs_E_unrounded [200; 100; 50; 255] 0.
Proof.
  intros H.
  destruct (H 200 100 50 255 eq_refl eq_refl eq_refl eq_refl)
    as (out & Hrun & Hcol & _).
  vm_compute in Hrun. injection Hrun as <-.
  destruct (Hcol 0%nat ltac:(lia)) as (v & Hv & HE).
  vm_compute in Hv. injection Hv as <-.
  apply (f_equal (fun x => PrimFloat.eqb x (Number_of_Z 149))) in HE.
  vm_compute in HE. discriminate HE.
Qed.

(** C4.  The 1x1 image with RGB (200, 100, 50) comes out as
    (149, 149, 149) with its alpha byte unchanged, whatever that byte is;
    luma is 124.2 and E lies within one half of 149. *)
Theorem enhancement_example_pixel :
  (∀ a : Z, pixel_pass [200; 100; 50; a] = Some [149; 149; 149; a])
  ∧ gray (Number_of_Z 200) (Number_of_Z 100) (Number_of_Z 50) = 124.2%float
  ∧ (let E := enhanced (Number_of_Z 200) (Number_of_Z 100) (Number_of_Z 50) in
     PrimFloat.ltb 148.5 E = true ∧ PrimFloat.ltb E 149.5 = true).
Proof.
  split; [|split; [|split]].
  - intros a.
    destruct (pixel_pass_pixel [200; 100; 50; a] 0 200 100 50 a
                eq_refl eq_refl eq_refl eq_refl)
      as (out & -> & Hlen & H0 & H1 & H2 & H3).
    f_equal.
    destruct out as [|x0 [|x1 [|x2 [|x3 [|? ?]]]]]; try discriminate Hlen.
    cbn in H0, H1, H2, H3.
    injection H0 as ->. injection H1 as ->. injection H2 as ->.
    injection H3 as ->.
    by vm_compute.
  - by vm_compute.
  - by vm_compute.
  - by vm_compute.
Qed.

End Transform.

(** ** Upload validation *)

Section UploadValidation.

Import Browser Api Handler.

Lemma includes_false (l : list string) (x : string) :
  x ∉ l → includes l x = false.
Proof.
  intros Hx. unfold includes. apply not_true_is_false. intros H.
  apply existsb_exists in H as (y & Hy & Heq).
  apply String.eqb_eq in Heq. subst y.
  apply Hx. by apply list_elem_of_In.
Qed.

Lemma includes_true (l : list string) (x : string) :
  x ∈ l → includes l x = true.
Proof.
  intros Hx. unfold includes. apply existsb_exists.
  exists x. split; [by apply list_elem_of_In | apply String.eqb_refl].
Qed.

Context {B : Type}.
Variable srv : Server B.

(** C2.  A file whose type is not one of image/jpeg, image/jpg, image/png
    is refused with the "Invalid file type" toast and nothing else
    happens: the component state is the same, no request is sent, so the
    backend (job records and assets) is the same.  This holds in the
    simulated and in the backend-connected component. *)
Theorem upload_rejects_invalid_type (file : File) :
  type file ∉ ["image/jpeg"; "image/jpg"; "image/png"] →
  (∀ st : Simulated.State,
     Simulated.handleFileSelect (Some file) st
     = (tt, st, [toast Simulated.toast_invalid_type]))
  ∧ (∀ w : Backed.World B,
       Backed.handleFileSelect srv (Some file) w
       = (tt, w, [toast Backed.toast_invalid_type])).
Proof.
  intros Htype. split; intros w;
    unfold Simulated.handleFileSelect, Backed.handleFileSelect;
    unfold Simulated.validTypes, Backed.validTypes;
    by rewrite (includes_false _ _ Htype).
Qed.

(** The handler as one step is the selection with the preview loaded
    before the answer. *)
Lemma handleFileSelect_schedule (file0 : option File) (w : Backed.World B) :
  Backed.handleFileSelect srv file0 w
  = BackedSelect.handleFileSelect_in srv BackedSelect.preview_first file0 w.
Proof.
  destruct file0 as [file|]; [|reflexivity].
  unfold BackedSelect.handleFileSelect_in,
    BackedSelect.handleFileSelect_started, Backed.handleFileSelect.
  destruct (negb (includes Backed.validTypes (type file))); [reflexivity|].
  destruct (size file >? Backed.maxSize); [reflexivity|].
  unfold BackedSelect.preview_loaded, BackedSelect.handleFileSelect_settled,
    bind, Backed.setUploadedFile, Backed.setIsUploading,
    Backed.setEnhancedImage, Backed.setCurrentImageId,
    Backed.setOriginalImage, Backed.update, modify, ret,
    Backed.axios_post_upload.
  cbn [Backed.ui Backed.backend].
  destruct (post_upload srv (Backed.backend w) file) as [b [data|detail]].
  - by destruct (upload_success data).
  - reflexivity.
Qed.

(** What the selection of an accepted file does, by the answer of the
    backend, in either order of the preview and the answer. *)
Lemma handleFileSelect_in_accepted
    (file : File) (w : Backed.World B) (o : BackedSelect.Order) :
  type file ∈ ["image/jpeg"; "image/jpg"; "image/png"] →
  size file <= 10 * 1024 * 1024 →
  BackedSelect.handleFileSelect_in srv o (Some file) w
  = (tt,
     {| Backed.ui :=
          {| Backed.originalImage :=
               match (post_upload srv (Backed.backend w) file).2, o with
               | Rejected _, BackedSelect.preview_first => None
               | _, _ => Some (readAsDataURL file)
               end;
             Backed.enhancedImage := None;
             Backed.isProcessing := Backed.isProcessing (Backed.ui w);
             Backed.isUploading := false;
             Backed.uploadedFile :=
               match (post_upload srv (Backed.backend w) file).2 with
               | Rejected _ => None
               | Resolved _ => Some file
               end;
             Backed.currentImageId :=
               match (post_upload srv (Backed.backend w) file).2 with
               | Resolved data =>
                   if upload_success data then Some (imageId data) else None
               | Rejected _ => None
               end |};
        Backed.backend := (post_upload srv (Backed.backend w) file).1 |},
     request "POST" (API srv +:+ "/images/upload") (Some file)
     :: match (post_upload srv (Backed.backend w) file).2 with
        | Resolved data =>
            if upload_success data
            then [toast (Backed.toast_upload_successful (upload_message data))]
            else []
        | Rejected detail =>
            [console_error "Upload error:";
             toast (Backed.toast_upload_failed detail)]
        end).
Proof.
  intros Htype Hsize.
  unfold BackedSelect.handleFileSelect_in,
    BackedSelect.handleFileSelect_started, Backed.validTypes, Backed.maxSize.
  rewrite (includes_true _ _ Htype).
  destruct (Z.gtb_spec (size file) (10 * 1024 * 1024)) as [|_]; [lia|].
  cbn [negb].
  unfold BackedSelect.preview_loaded, BackedSelect.handleFileSelect_settled,
    bind, Backed.setUploadedFile, Backed.setIsUploading,
    Backed.setEnhancedImage, Backed.setCurrentImageId,
    Backed.setOriginalImage, Backed.update, modify, ret, emit,
    Backed.axios_post_upload.
  cbn [Backed.ui Backed.backend].
  destruct (post_upload srv (Backed.backend w) file) as [b [data|detail]];
    cbn [fst snd].
  - destruct o; destruct (upload_success data); reflexivity.
  - destruct o; reflexivity.
Qed.

(** C3, as the code has it.  The size check comes after the type check.
    A file of an accepted type above 10 MiB is refused with the "File too
    large" toast and nothing else happens (state and backend the same, no
    request).  A file of an accepted type at or below the limit passes:
    the simulated component records it and reports success; the
    backend-connected one posts it to [/images/upload] and the backend's
    answer decides.  A successful answer sets the current image id and
    is reported, and the preview stays.  An answer without success sets
    no image id and is not reported.  A rejection is reported and
    leaves no current image and no file; the preview is gone when it
    had loaded before the rejection came, and it stays when it loads
    after it.  All this holds in both orders of the preview and the
    answer. *)
Theorem upload_size_limit (file : File) :
  type file ∈ ["image/jpeg"; "image/jpg"; "image/png"] →
  (size file > 10 * 1024 * 1024 →
     (∀ st : Simulated.State,
        Simulated.handleFileSelect (Some file) st
        = (tt, st, [toast Simulated.toast_too_large]))
     ∧ (∀ w : Backed.World B,
          Backed.handleFileSelect srv (Some file) w
          = (tt, w, [toast Backed.toast_too_large])))
  ∧ (size file <= 10 * 1024 * 1024 →
       (∀ st : Simulated.State,
          Simulated.handleFileSelect (Some file) st
          = (tt,
             {| Simulated.originalImage := Some (readAsDataURL file);
                Simulated.enhancedImage := None;
                Simulated.isProcessing := Simulated.isProcessing st;
                Simulated.uploadedFile := Some file |},
             [toast Simulated.toast_uploaded]))
       ∧ (∀ (w : Backed.World B) (o : BackedSelect.Order),
            let m := BackedSelect.handleFileSelect_in srv o (Some file) in
            let answer := post_upload srv (Backed.backend w) file in
            requests (effects m w)
            = [request "POST" (API srv +:+ "/images/upload") (Some file)]
            ∧ Backed.backend (final m w) = fst answer
            ∧ Backed.isUploading (Backed.ui (final m w)) = false
            ∧ (∀ data,
                 snd answer = Resolved data → upload_success data = true →
                 Backed.currentImageId (Backed.ui (final m w))
                 = Some (imageId data)
                 ∧ Backed.uploadedFile (Backed.ui (final m w)) = Some file
                 ∧ Backed.originalImage (Backed.ui (final m w))
                   = Some (readAsDataURL file)
                 ∧ effects m w
                   = [request "POST" (API srv +:+ "/images/upload")
                        (Some file);
                      toast (Backed.toast_upload_successful
                               (upload_message data))])
            ∧ (∀ data,
                 snd answer = Resolved data → upload_success data = false →
                 Backed.currentImageId (Backed.ui (final m w)) = None
                 ∧ effects m w
                   = [request "POST" (API srv +:+ "/images/upload")
                        (Some file)])
            ∧ (∀ detail,
                 snd answer = Rejected detail →
                 Backed.currentImageId (Backed.ui (final m w)) = None
                 ∧ Backed.uploadedFile (Backed.ui (final m w)) = None
                 ∧ Backed.originalImage (Backed.ui (final m w))
                   = match o with
                     | BackedSelect.preview_first => None
                     | BackedSelect.answer_first =>
                         Some (readAsDataURL file)
                     end
                 ∧ effects m w
                   = [request "POST" (API srv +:+ "/images/upload")
                        (Some file);
                      console_error "Upload error:";
                      toast (Backed.toast_upload_failed detail)]))
       ∧ (∀ w : Backed.World B,
            Backed.handleFileSelect srv (Some file) w
            = BackedSelect.handleFileSelect_in srv BackedSelect.preview_first
                (Some file) w)).
Proof.
  intros Htype. split; intros Hsize.
  - assert ((size file >? 10 * 1024 * 1024) = true) as Hgt
        by (apply Z.gtb_lt; lia).
    split; intros w;
      unfold Simulated.handleFileSelect, Backed.handleFileSelect;
      unfold Simulated.validTypes, Backed.validTypes,
        Simulated.maxSize, Backed.maxSize;
      by rewrite (includes_true _ _ Htype), Hgt.
  - assert ((size file >? 10 * 1024 * 1024) = false) as Hle.
    { destruct (Z.gtb_spec (size file) (10 * 1024 * 1024)); [lia | done]. }
    split; [|split]; intros w.
    + unfold Simulated.handleFileSelect, Simulated.validTypes,
        Simulated.maxSize.
      by rewrite (includes_true _ _ Htype), Hle.
    + intros o. cbv zeta. unfold effects, final.
      rewrite (handleFileSelect_in_accepted file w o Htype Hsize).
      cbn [fst snd Backed.ui Backed.backend Backed.isUploading
             Backed.currentImageId Backed.uploadedFile Backed.originalImage].
      split; [|split; [reflexivity|split; [reflexivity|]]].
      { destruct (post_upload srv (Backed.backend w) file).2 as [data|detail];
          [destruct (upload_success data)|]; reflexivity. }
      split; [|split].
      * intros data -> ->. by destruct o.
      * intros data -> ->. done.
      * intros detail ->. by destruct o.
    + apply handleFileSelect_schedule.
Qed.

End UploadValidation.

Lemma upload_rejects_invalid_type_witness :
  Simulated.handleFileSelect (Some Sample.pdf) Sample.simulated_idle
  = (tt, Sample.simulated_idle, [Browser.toast Simulated.toast_invalid_type])
  ∧ Backed.handleFileSelect Sample.server (Some Sample.pdf) Sample.backed_idle
    = (tt, Sample.backed_idle, [Browser.toast Backed.toast_invalid_type]).
Proof.
  assert (Browser.type Sample.pdf ∉ ["image/jpeg"; "image/jpg"; "image/png"])
    as Htype.
  { rewrite !not_elem_of_cons. repeat split; try discriminate.
    apply not_elem_of_nil. }
  destruct (upload_rejects_invalid_type Sample.server Sample.pdf Htype)
    as [Hsim Hbacked].
  split; [apply Hsim | apply Hbacked].
Defined.

Lemma upload_size_limit_witness :
  Backed.handleFileSelect Sample.server (Some Sample.huge_png) Sample.backed_idle
  = (tt, Sample.backed_idle, [Browser.toast Backed.toast_too_large])
  ∧ Simulated.handleFileSelect (Some Sample.jpeg_at_limit) Sample.simulated_idle
    = (tt,
       {| Simulated.originalImage :=
            Some (Browser.readAsDataURL Sample.jpeg_at_limit);
          Simulated.enhancedImage := None;
          Simulated.isProcessing := false;
          Simulated.uploadedFile := Some Sample.jpeg_at_limit |},
       [Browser.toast Simulated.toast_uploaded])
  ∧ Backed.currentImageId
      (Backed.ui
         (Handler.final
            (BackedSelect.handleFileSelect_in Sample.server
               BackedSelect.answer_first (Some Sample.jpeg_at_limit))
            Sample.backed_idle))
    = Some "scan.jpg"
  ∧ Backed.originalImage
      (Backed.ui
         (Handler.final
            (BackedSelect.handleFileSelect_in SampleFlow.failing_server
               BackedSelect.answer_first (Some Sample.jpeg_at_limit))
            Sample.backed_idle))
    = Some (Browser.readAsDataURL Sample.jpeg_at_limit)
  ∧ Backed.originalImage
      (Backed.ui
         (Handler.final
            (BackedSelect.handleFileSelect_in SampleFlow.failing_server
               BackedSelect.preview_first (Some Sample.jpeg_at_limit))
            Sample.backed_idle))
    = None.
Proof.
  assert (Browser.type Sample.huge_png ∈ ["image/jpeg"; "image/jpg"; "image/png"])
    as Hpng by (rewrite !elem_of_cons; auto).
  assert (Browser.type Sample.jpeg_at_limit
          ∈ ["image/jpeg"; "image/jpg"; "image/png"])
    as Hjpeg by (rewrite !elem_of_cons; auto).
  destruct (upload_size_limit Sample.server Sample.huge_png Hpng) as [Hbig _].
  destruct (upload_size_limit Sample.server Sample.jpeg_at_limit Hjpeg)
    as [_ Hsmall].
  destruct (upload_size_limit SampleFlow.failing_server Sample.jpeg_at_limit
              Hjpeg) as [_ Hdown].
  destruct (Hbig ltac:(reflexivity)) as [_ Hbig_backed].
  destruct (Hsmall ltac:(discriminate)) as (Hsim & Hbacked & _).
  destruct (Hdown ltac:(discriminate)) as (_ & Hfails & _).
  split; [apply Hbig_backed|]. split; [apply Hsim|].
  destruct (Hbacked Sample.backed_idle BackedSelect.answer_first)
    as (_ & _ & _ & Hok & _).
  destruct (Hok _ eq_refl eq_refl) as [Hid _].
  split; [exact Hid|].
  destruct (Hfails Sample.backed_idle BackedSelect.answer_first)
    as (_ & _ & _ & _ & _ & Hlate).
  destruct (Hfails Sample.backed_idle BackedSelect.preview_first)
    as (_ & _ & _ & _ & _ & Hearly).
  destruct (Hlate None eq_refl) as (_ & _ & Hkept & _).
  destruct (Hearly None eq_refl) as (_ & _ & Hgone & _).
  split; [exact Hkept | exact Hgone].
Defined.

(** C3 read literally fails in both halves.  An 11 MiB file of type
    application/pdf is refused as an invalid type, not as too large.  A
    JPEG of exactly 10 MiB sent to a backend that is down passes the
    checks and does not succeed: the component ends without an image
    id. *)
Lemma upload_outcome_is_not_decided_by_size :
  ¬ Literal.oversize_always_too_large
  ∧ ¬ LiteralAnswers.accepted_always_succeeds.
Proof.
  split.
  - intros H.
    specialize (H Sample.huge_pdf Sample.simulated_idle ltac:(reflexivity)).
    vm_compute in H. discriminate H.
  - intros H.
    destruct (H _ SampleFlow.failing_server Sample.backed_idle
                Sample.jpeg_at_limit) as [id Hid].
    + rewrite !elem_of_cons; auto.
    + discriminate.
    + vm_compute in Hid. discriminate Hid.
Qed.

(** ** The format of the enhanced image *)

Section OutputFormat.

Import Browser Handler.

Variable decode : DataURL → option ImageData.
Variable encoder_available : string → bool.

(** C5.  Whenever the original image loads, whatever its media type, the
    enhanced image the component ends with is a data URL of type
    image/png that encodes the canvas after the pixel pass; processing is
    over and the completion toast is shown. *)
Theorem enhanced_image_is_png
    (st : Simulated.State) (src : DataURL) (img : ImageData) :
  Simulated.originalImage st = Some src →
  decode src = Some img →
  let m := Simulated.simulateEnhancement decode encoder_available in
  ∃ out enhancedDataUrl,
    Enhancement.pixel_pass (data img) = Some out
    ∧ Simulated.enhancedImage (final m st) = Some enhancedDataUrl
    ∧ mediaType enhancedDataUrl = "image/png"
    ∧ content enhancedDataUrl
      = canvas_pixels
          {| width := width img; height := height img; data := out |}
    ∧ Simulated.isProcessing (final m st) = false
    ∧ effects m st = [toast Simulated.toast_enhanced].
Proof.
  intros Hsrc Himg. cbv zeta.
  destruct (pixel_pass_total (data img)) as [out Hout].
  exists out, (Simulated.toDataURL encoder_available "image/png"
                 {| width := width img; height := height img; data := out |}).
  unfold final, effects, Simulated.simulateEnhancement, bind, gets.
  rewrite Hsrc. cbn. rewrite Himg, Hout. cbn. done.
Qed.

End OutputFormat.

Lemma enhanced_image_is_png_witness :
  let m :=
    Simulated.simulateEnhancement
      SampleCanvas.decode SampleCanvas.encoder_available in
  ∃ out enhancedDataUrl,
    Enhancement.pixel_pass [200; 100; 50; 255] = Some out
    ∧ Simulated.enhancedImage (Handler.final m SampleCanvas.loaded)
      = Some enhancedDataUrl
    ∧ Browser.mediaType enhancedDataUrl = "image/png"
    ∧ Browser.content enhancedDataUrl
      = Browser.canvas_pixels
          {| Browser.width := 1; Browser.height := 1; Browser.data := out |}
    ∧ Simulated.isProcessing (Handler.final m SampleCanvas.loaded) = false
    ∧ Handler.effects m SampleCanvas.loaded
      = [Browser.toast Simulated.toast_enhanced].
Proof.
  exact (enhanced_image_is_png
           SampleCanvas.decode SampleCanvas.encoder_available
           SampleCanvas.loaded SampleCanvas.jpeg_url
           {| Browser.width := 1; Browser.height := 1;
              Browser.data := [200; 100; 50; 255] |}
           eq_refl eq_refl).
Defined.

(** ** Downloads *)

Section Downloads.

Import Stdlib.Strings.Ascii.
Import Browser Api Handler.

Lemma not_completed_true (item : Job) :
  status item ≠ "Completed" → History.not_completed item = true.
Proof.
  intros H. unfold History.not_completed.
  destruct (String.eqb_spec (status item) "Completed") as [Heq|Hne].
  - done.
  - done.
Qed.

Lemma not_completed_false (item : Job) :
  status item = "Completed" → History.not_completed item = false.
Proof.
  intros H. unfold History.not_completed. by rewrite H.
Qed.

(** The header the interface documents: [attachment; filename=<name>]. *)
Lemma match_filename_attachment (fn : string) :
  dots fn ≠ EmptyString →
  match_filename ("attachment; filename=" +:+ fn) = Some (dots fn).
Proof.
  intros H. cbv -[dots]. destruct (dots fn); done.
Qed.

Lemma filename_from_attachment (fn default : string) :
  dots fn ≠ EmptyString →
  filename_from_header (Some ("attachment; filename=" +:+ fn)) default
  = remove_quotes (dots fn).
Proof.
  intros H. unfold filename_from_header.
  assert (truthy (Some ("attachment; filename=" +:+ fn))
          = Some ("attachment; filename=" +:+ fn)) as -> by reflexivity.
  by rewrite match_filename_attachment.
Qed.

Lemma append_cons (c : Ascii.ascii) (s t : string) :
  String c s +:+ t = String c (s +:+ t).
Proof. reflexivity. Qed.

Lemma append_nil_r (s : string) : s +:+ EmptyString = s.
Proof.
  induction s as [|c s IH]; [done|]. by rewrite append_cons, IH.
Qed.

Lemma strip_prefix_app (p rest : string) :
  strip_prefix p (p +:+ rest) = Some rest.
Proof.
  induction p as [|c p IH]; [by destruct rest|].
  rewrite append_cons. cbn [strip_prefix]. by rewrite Ascii.eqb_refl.
Qed.

Lemma strip_prefix_Some (p s rest : string) :
  strip_prefix p s = Some rest → s = p +:+ rest.
Proof.
  revert s. induction p as [|c p IH]; intros s H.
  - destruct s; cbn in H; by simplify_eq.
  - destruct s as [|d s]; [done|]. cbn [strip_prefix] in H.
    destruct (Ascii.eqb_spec c d) as [->|]; [|done].
    rewrite append_cons. f_equal. by apply IH.
Qed.

Lemma match_filename_step (c : Ascii.ascii) (s : string) :
  match_filename (String c s)
  = match strip_prefix "filename=" (String c s) with
    | Some rest =>
        match dots rest with
        | EmptyString => match_filename s
        | capture => Some capture
        end
    | None => match_filename s
    end.
Proof. reflexivity. Qed.

(** The match is found at the first place where the header names a
    file, and the capture runs to the end of the line. *)
Lemma match_filename_first (header pre rest : string) :
  Header.first_names_file header pre rest →
  match_filename header = Some (dots rest).
Proof.
  revert header. induction pre as [|c pre IH]; intros header [[Heq Hd] Hmin].
  - subst header. change (EmptyString +:+ ?x) with x.
    change ("filename=" +:+ rest)
      with (String "f"%char ("ilename=" +:+ rest)).
    rewrite match_filename_step.
    change (String "f"%char ("ilename=" +:+ rest))
      with ("filename=" +:+ rest).
    rewrite strip_prefix_app. by destruct (dots rest).
  - subst header. rewrite (append_cons c pre). rewrite match_filename_step.
    assert (match_filename (pre +:+ ("filename=" +:+ rest)) = Some (dots rest))
      as Hh.
    { apply IH. split; [by split|]. intros pre' rest' [Heq' Hd'].
      specialize (Hmin (String c pre') rest').
      cbn [String.length] in Hmin.
      apply le_S_n, Hmin. split; [|done].
      exact (f_equal (String c) Heq'). }
    destruct (strip_prefix "filename=" (String c (pre +:+ ("filename=" +:+ rest))))
      as [rest0|] eqn:Hs; [|done].
    apply strip_prefix_Some in Hs.
    destruct (dots rest0) eqn:Hd0; [done|].
    exfalso. specialize (Hmin EmptyString rest0).
    cbn [String.length] in Hmin.
    assert (S (String.length pre) ≤ 0)%nat; [|lia].
    apply Hmin. split; [exact Hs | by rewrite Hd0].
Qed.

(** A header that names a file at some place matches. *)
Lemma names_file_matches (header pre rest : string) :
  Header.names_file header pre rest → match_filename header ≠ None.
Proof.
  revert header. induction pre as [|c pre IH]; intros header [Heq Hd].
  - subst header. change (EmptyString +:+ ?x) with x.
    change ("filename=" +:+ rest)
      with (String "f"%char ("ilename=" +:+ rest)).
    rewrite match_filename_step.
    change (String "f"%char ("ilename=" +:+ rest))
      with ("filename=" +:+ rest).
    rewrite strip_prefix_app. by destruct (dots rest).
  - subst header. rewrite (append_cons c pre). rewrite match_filename_step.
    assert (match_filename (pre +:+ ("filename=" +:+ rest)) ≠ None) as Hh
        by (by apply IH).
    destruct (strip_prefix "filename=" (String c (pre +:+ ("filename=" +:+ rest))))
      as [rest0|]; [|done].
    by destruct (dots rest0).
Qed.

(** A header that names a file nowhere does not match. *)
Lemma match_filename_nowhere (header : string) :
  (∀ pre rest, ¬ Header.names_file header pre rest) →
  match_filename header = None.
Proof.
  induction header as [|c header IH]; intros Hno; [reflexivity|].
  rewrite match_filename_step.
  assert (match_filename header = None) as Hh.
  { apply IH. intros pre rest [Heq Hd]. apply (Hno (String c pre) rest).
    split; [|done]. exact (f_equal (String c) Heq). }
  destruct (strip_prefix "filename=" (String c header)) as [rest|] eqn:Hs;
    [|done].
  apply strip_prefix_Some in Hs.
  destruct (dots rest) eqn:Hd; [done|].
  exfalso. apply (Hno EmptyString rest). split; [exact Hs | by rewrite Hd].
Qed.

(** Before its first [f] a header cannot name a file. *)
Lemma names_file_is_first (header pre rest : string) :
  Header.lacks "f"%char pre = true →
  Header.names_file header pre rest →
  Header.first_names_file header pre rest.
Proof.
  intros Hl Hn. split; [done|]. destruct Hn as [Heq _].
  intros pre' rest' [Heq' _]. subst header.
  revert pre' Hl Heq'. induction pre as [|c pre IH]; intros pre' Hl Heq';
    [cbn; lia|].
  cbn [Header.lacks] in Hl. apply andb_prop in Hl as [Hc Hl].
  rewrite (append_cons c pre) in Heq'. destruct pre' as [|c' pre'].
  - change (EmptyString +:+ ?x) with x in Heq'.
    change ("filename=" +:+ rest')
      with (String "f"%char ("ilename=" +:+ rest')) in Heq'.
    injection Heq' as -> _. by rewrite Ascii.eqb_refl in Hc.
  - rewrite (append_cons c' pre') in Heq'. injection Heq' as _ Heq'.
    cbn [String.length]. apply le_n_S. by apply IH.
Qed.

Lemma filename_from_header_first (header pre rest default : string) :
  Header.first_names_file header pre rest →
  filename_from_header (Some header) default = remove_quotes (dots rest).
Proof.
  intros H. pose proof (match_filename_first _ _ _ H) as Hm.
  destruct header as [|c header]; [discriminate Hm|].
  unfold filename_from_header. cbn [truthy]. by rewrite Hm.
Qed.

Lemma filename_from_header_nowhere
    (contentDisposition : option string) (default : string) :
  Header.gives_no_name contentDisposition →
  filename_from_header contentDisposition default = default.
Proof.
  intros H. destruct contentDisposition as [[|c header]|]; try reflexivity.
  unfold filename_from_header. cbn [truthy].
  rewrite match_filename_nowhere; [done|].
  intros pre rest. by apply H.
Qed.

Context {B : Type}.
Variable srv : Server B.

(** C6.  A job whose status is not Completed cannot be downloaded:
    [handleDownload] only shows the "Download not available" toast, sends
    no request and starts no download, and the row's button is disabled.
    For a Completed job the download request is sent, and the download
    starts as soon as the backend answers it. *)
Theorem download_requires_completed (item : Job) (w : History.World B) :
  (status item ≠ "Completed" →
     History.handleDownload srv item w
     = (tt, w, [toast History.toast_not_available])
     ∧ History.download_button srv item w = (tt, w, []))
  ∧ (downloads (effects (History.handleDownload srv item) w) ≠ [] →
     status item = "Completed")
  ∧ (status item = "Completed" →
     requests (effects (History.handleDownload srv item) w)
     = [request "GET" (API srv +:+ "/images/" +:+ id item +:+ "/download")
          None]
     ∧ ∀ r, snd (get_download srv (History.backend w) (id item)) = Resolved r →
            ∃ filename,
              downloads (effects (History.handleDownload srv item) w)
              = [filename]).
Proof.
  split; [|split].
  - intros H. unfold History.download_button, History.handleDownload.
    by rewrite (not_completed_true _ H).
  - intros H.
    destruct (String.eqb_spec (status item) "Completed") as [|Hne]; [done|].
    exfalso. apply H. unfold History.handleDownload.
    by rewrite (not_completed_true _ Hne).
  - intros H. unfold History.handleDownload, effects.
    rewrite (not_completed_false _ H).
    unfold bind, History.axios_get_download.
    destruct (get_download srv (History.backend w) (id item))
      as [b [r|detail]]; cbn.
    + split; [done|]. intros r' [= <-]. eauto.
    + split; [done|]. intros r' [=].
Qed.

(** C7, as the code has it.  For a Completed job whose download the
    backend answers:
    - a [content-disposition] header decides whenever it names a file:
      the suggested name is what follows the first [filename=] that is
      followed by a character of the same line, up to the end of that
      line, double quotes removed;
    - when the header is missing or names no file, the history view
      suggests the record's [enhancedImageName], and when the record has
      none or an empty one, [enhanced_<originalImageName>.png];
    - when the header is missing or names no file, the upload view
      suggests [enhanced_medical_image_<Date.now()>.png]. *)
Theorem download_filename (item : Job) (w : History.World B) (r : DownloadResponse) :
  status item = "Completed" →
  snd (get_download srv (History.backend w) (id item)) = Resolved r →
  let suggested := downloads (effects (History.handleDownload srv item) w) in
  (∀ header pre rest,
     content_disposition r = Some header →
     Header.first_names_file header pre rest →
     suggested = [remove_quotes (dots rest)])
  ∧ (Header.gives_no_name (content_disposition r) →
     ∀ n, enhancedImageName item = Some n → n ≠ EmptyString →
          suggested = [n])
  ∧ (Header.gives_no_name (content_disposition r) →
     truthy (enhancedImageName item) = None →
     suggested = ["enhanced_" +:+ originalImageName item +:+ ".png"])
  ∧ (∀ (u : Backed.World B) (now : Z) (current : string) (d : DownloadResponse),
       Backed.currentImageId (Backed.ui u) = Some current →
       current ≠ EmptyString →
       snd (get_download srv (Backed.backend u) current) = Resolved d →
       let suggested' :=
         downloads (effects (Backed.downloadEnhancedImage srv now) u) in
       (Header.gives_no_name (content_disposition d) →
        suggested'
        = ["enhanced_medical_image_" +:+ Z_to_string now +:+ ".png"])
       ∧ (∀ header pre rest,
            content_disposition d = Some header →
            Header.first_names_file header pre rest →
            suggested' = [remove_quotes (dots rest)])).
Proof.
  intros Hst Hr. cbv zeta.
  assert (downloads (effects (History.handleDownload srv item) w)
          = [filename_from_header (content_disposition r)
               (or_else (enhancedImageName item)
                  ("enhanced_" +:+ originalImageName item +:+ ".png"))])
    as ->.
  { unfold History.handleDownload, effects.
    rewrite (not_completed_false _ Hst).
    unfold bind, History.axios_get_download.
    destruct (get_download srv (History.backend w) (id item)) as [b o].
    cbn in Hr. subst o. done. }
  split; [|split; [|split]].
  - intros header pre rest -> Hfirst.
    by rewrite (filename_from_header_first _ _ _ _ Hfirst).
  - intros Hno n -> Hn. rewrite (filename_from_header_nowhere _ _ Hno).
    cbn. destruct n; done.
  - intros Hno Hnone. rewrite (filename_from_header_nowhere _ _ Hno).
    unfold or_else. by rewrite Hnone.
  - intros u now current d Hcur Hne Hd.
    assert (downloads (effects (Backed.downloadEnhancedImage srv now) u)
            = [filename_from_header (content_disposition d)
                 ("enhanced_medical_image_" +:+ Z_to_string now +:+ ".png")])
      as ->.
    { unfold Backed.downloadEnhancedImage, effects, bind, gets.
      rewrite Hcur. destruct current as [|c current]; [done|].
      cbn [truthy]. unfold Backed.axios_get_download.
      destruct (get_download srv (Backed.backend u) (String c current))
        as [b o].
      cbn in Hd. subst o. done. }
    split.
    + intros Hno. by rewrite (filename_from_header_nowhere _ _ Hno).
    + intros header pre rest -> Hfirst.
      by rewrite (filename_from_header_first _ _ _ _ Hfirst).
Qed.

End Downloads.

Lemma download_requires_completed_witness :
  History.handleDownload Sample.server SampleHistory.processing_job
    SampleHistory.idle
  = (tt, SampleHistory.idle, [Browser.toast History.toast_not_available])
  ∧ Browser.downloads
      (Handler.effects
         (History.handleDownload Sample.server SampleHistory.completed_job)
         SampleHistory.idle)
    = ["enhanced_chest_xray_002.jpg.png"].
Proof.
  destruct (download_requires_completed Sample.server
              SampleHistory.processing_job SampleHistory.idle)
    as (Hrejected & _ & _).
  destruct (download_requires_completed Sample.server
              SampleHistory.completed_job SampleHistory.idle)
    as (_ & _ & Hstarted).
  split.
  - apply Hrejected. discriminate.
  - destruct (Hstarted eq_refl) as [_ Hdl].
    destruct (Hdl _ eq_refl) as [filename Hfilename].
    rewrite Hfilename. vm_compute in Hfilename.
    injection Hfilename as <-. reflexivity.
Defined.

Lemma download_filename_witness :
  Browser.downloads
    (Handler.effects
       (History.handleDownload Sample.server SampleHistory.completed_job)
       SampleHistory.idle)
  = ["enhanced_chest_xray_002.jpg.png"]
  ∧ Browser.downloads
      (Handler.effects
         (Backed.downloadEnhancedImage Sample.server 1700000000000)
         SampleHistory.enhanced_upload)
    = ["enhanced_medical_image_1700000000000.png"]
  ∧ Browser.downloads
      (Handler.effects
         (History.handleDownload SampleAnswers.inline_server
            SampleHistory.completed_job)
         SampleHistory.idle)
    = ["a.png"]
  ∧ Browser.downloads
      (Handler.effects
         (History.handleDownload SampleAnswers.bare_inline_server
            SampleHistory.completed_job)
         SampleHistory.idle)
    = ["enhanced_chest_xray_002.jpg.png"].
Proof.
  assert (Header.gives_no_name None) as Hmissing.
  { intros header pre rest [=]. }
  assert (Header.gives_no_name (Some "inline")) as Hbare.
  { intros header pre rest [= <-] Hn.
    by apply names_file_matches in Hn. }
  assert (Header.first_names_file "inline; filename=a.png" "inline; " "a.png")
    as Hinline.
  { apply names_file_is_first; [reflexivity|]. split; [reflexivity|].
    discriminate. }
  destruct (download_filename Sample.server SampleHistory.completed_job
              SampleHistory.idle
              {| Api.blob := [137; 80; 78; 71];
                 Api.content_disposition := None |}
              eq_refl eq_refl)
    as (_ & _ & Hhistory & Hupload).
  destruct (download_filename SampleAnswers.inline_server
              SampleHistory.completed_job SampleHistory.idle
              {| Api.blob := SampleAnswers.blob_of_png;
                 Api.content_disposition := Some "inline; filename=a.png" |}
              eq_refl eq_refl)
    as (Hnamed & _).
  destruct (download_filename SampleAnswers.bare_inline_server
              SampleHistory.completed_job SampleHistory.idle
              {| Api.blob := SampleAnswers.blob_of_png;
                 Api.content_disposition := Some "inline" |}
              eq_refl eq_refl)
    as (_ & _ & Hfallback & _).
  split; [|split; [|split]].
  - exact (Hhistory Hmissing eq_refl).
  - destruct (Hupload SampleHistory.enhanced_upload 1700000000000 "scan.jpg"
                {| Api.blob := [137; 80; 78; 71];
                   Api.content_disposition := None |}
                eq_refl ltac:(discriminate) eq_refl)
      as [Hplain _].
    exact (Hplain Hmissing).
  - exact (Hnamed _ _ _ eq_refl Hinline).
  - exact (Hfallback Hbare eq_refl).
Defined.

(** C7 read literally fails in three ways.  For the uploaded file
    [scan.jpg], enhanced and downloaded from the upload view with no
    readable header, the suggested name is
    [enhanced_medical_image_1700000000000.png], which is not built from
    [scan.jpg].  In the history view the job of [chest_xray_002.jpg] is
    downloaded as [9c1e.png] when the response's header says so, and
    also when the job's record names its enhanced file so. *)
Lemma download_name_not_always_derived :
  ¬ Literal.download_name_always_derived
  ∧ ¬ LiteralAnswers.history_name_derived_whatever_the_header
  ∧ ¬ LiteralAnswers.history_name_derived_whatever_the_record.
Proof.
  split; [|split].
  - intros H.
    destruct (H (list Browser.File) Sample.server SampleHistory.enhanced_upload
                1700000000000 Sample.jpeg_at_limit "scan.jpg"
                {| Api.blob := [137; 80; 78; 71];
                   Api.content_disposition := None |}
                eq_refl eq_refl ltac:(discriminate) eq_refl)
      as (filename & Hdl & stem & Hprefix & Hname).
    vm_compute in Hdl. injection Hdl as <-.
    destruct stem as [|c stem]; [discriminate Hname|].
    cbn in Hname. injection Hname as Hc _. subst c.
    vm_compute in Hprefix. discriminate Hprefix.
  - intros H.
    destruct (H (list Browser.File) SampleAnswers.stored_name_server
                SampleHistory.idle SampleHistory.completed_job
                {| Api.blob := SampleAnswers.blob_of_png;
                   Api.content_disposition :=
                     Some "attachment; filename=9c1e.png" |}
                eq_refl eq_refl eq_refl)
      as (filename & Hdl & stem & _ & Hname).
    vm_compute in Hdl. injection Hdl as <-. discriminate Hname.
  - intros H.
    destruct (H (list Browser.File) Sample.server
                SampleHistory.idle SampleAnswers.named_job
                {| Api.blob := [137; 80; 78; 71];
                   Api.content_disposition := None |}
                eq_refl eq_refl eq_refl)
      as (filename & Hdl & stem & _ & Hname).
    vm_compute in Hdl. injection Hdl as <-. discriminate Hname.
Qed.

(** ** The mock API *)

Section MockApi.

Import Browser Api Handler Mock.

Lemma run_store (calls : list Call) :
  ∀ store, fst (run store calls) = store.
Proof.
  induction calls as [|c calls IH]; intros store; [done|].
  cbn [run]. destruct (mockAPI store c) as [store1 r] eqn:Hc.
  assert (store1 = store) as -> by (destruct c; cbn in Hc; congruence).
  specialize (IH store). destruct (run store calls) as [store2 rs].
  exact IH.
Qed.

(** A reply carries no job at all, or the history array as it is. *)
Lemma run_replies_jobs (calls : list Call) :
  ∀ store r, r ∈ snd (run store calls) →
             jobs_of r = [] ∨ jobs_of r = store.
Proof.
  induction calls as [|c calls IH]; intros store r Hr.
  - cbn in Hr. by apply elem_of_nil in Hr.
  - cbn [run] in Hr. destruct (mockAPI store c) as [store1 r1] eqn:Hc.
    assert (store1 = store ∧ (jobs_of r1 = [] ∨ jobs_of r1 = store))
      as [-> Hr1].
    { destruct c; cbn in Hc; injection Hc as <- <-; split; auto. }
    specialize (IH store r).
    destruct (run store calls) as [store2 rs]. cbn in Hr, IH.
    apply elem_of_cons in Hr as [-> | Hr]; auto.
Qed.

(** A history reply hands out the history array. *)
Lemma run_history_reply (calls : list Call) :
  ∀ store h, reply_history (Resolved h) ∈ snd (run store calls) →
             history_data h = store.
Proof.
  induction calls as [|c calls IH]; intros store h Hr.
  - cbn in Hr. by apply elem_of_nil in Hr.
  - cbn [run] in Hr. destruct (mockAPI store c) as [store1 r1] eqn:Hc.
    assert (store1 = store) as -> by (destruct c; cbn in Hc; congruence).
    specialize (IH store h).
    destruct (run store calls) as [store2 rs]. cbn in Hr, IH.
    apply elem_of_cons in Hr as [<- | Hr]; [|auto].
    destruct c; cbn in Hc; simplify_eq. done.
Qed.

Lemma run_replies (calls : list Call) :
  ∀ store r j, r ∈ snd (run store calls) → j ∈ jobs_of r → j ∈ store.
Proof.
  intros store r j Hr Hj.
  destruct (run_replies_jobs calls store r Hr) as [H | H];
    rewrite H in Hj; [by apply elem_of_nil in Hj | done].
Qed.

(** A string in the shape has its time value; a month 13, a 29 February
    outside a leap year, a blank in the place of the [T] or an offset in
    the place of the [Z] leave none. *)
Lemma Date_parse_examples :
  Dates.Date_parse "1970-01-01T00:00:00Z" = Some 0
  ∧ Dates.Date_parse "2025-01-15T10:30:00Z" = Some 1736937000000
  ∧ Dates.Date_parse "2024-02-29T10:30:00Z" = Some 1709202600000
  ∧ Dates.Date_parse "2025-02-29T10:30:00Z" = None
  ∧ Dates.Date_parse "2025-13-15T10:30:00Z" = None
  ∧ Dates.Date_parse "2025-01-15 10:30:00Z" = None
  ∧ Dates.Date_parse "2025-01-15T10:30:00+02:00" = None
  ∧ Dates.Date_parse "2025-01-15T10:30:00.000Z" = None.
Proof. repeat split; reflexivity. Qed.

(** C8, as the code has it.  [getEnhancementHistory] resolves with the
    whole history array in its stored order, whatever that order is; the
    array of the mock lists its three jobs from the latest upload to the
    earliest (15, 14, 13 January 2025); no call to the mock, an upload
    included, changes the array, so every history reply is this array;
    and [loadHistory], mock-backed or backend-connected, shows the list
    it received in the order received. *)
Theorem history_most_recent_first :
  (∀ store, getEnhancementHistory store
            = Resolved {| history_success := true; history_data := store |})
  ∧ most_recent_first mockEnhancementHistory
  ∧ map (fun j => (id j, Dates.Date_parse (uploadDate j)))
        mockEnhancementHistory
    = [("1", Some 1736937000000); ("2", Some 1736869500000);
       ("3", Some 1736759700000)]
  ∧ (∀ calls, fst (run mockEnhancementHistory calls) = mockEnhancementHistory)
  ∧ (∀ calls r h,
       r ∈ snd (run mockEnhancementHistory calls) →
       r = reply_history (Resolved h) →
       history_data h = mockEnhancementHistory
       ∧ most_recent_first (history_data h))
  ∧ (∀ st, History.history (final (loadHistory mockEnhancementHistory) st)
           = mockEnhancementHistory)
  ∧ (∀ (B : Type) (srv : Server B) (w : History.World B) (r : HistoryResponse),
       snd (get_history srv (History.backend w)) = Resolved r →
       history_success r = true →
       History.history (History.ui (final (History.loadHistory srv) w))
       = history_data r).
Proof.
  assert (most_recent_first mockEnhancementHistory) as Hsorted.
  { unfold most_recent_first, mockEnhancementHistory.
    repeat (constructor; [|repeat (constructor; [by vm_compute|]);
                             constructor]).
    constructor. }
  split; [done|]. split; [done|]. split; [by vm_compute|].
  split; [|split; [|split; [done|]]].
  - intros calls. apply run_store.
  - intros calls r h Hr ->.
    rewrite (run_history_reply calls _ _ Hr). done.
  - intros B srv w r Hr Hok.
    unfold final, History.loadHistory, bind, History.axios_get_history.
    cbn. destruct (get_history srv (History.backend w)) as [b o].
    cbn in Hr. subst o. cbn. by rewrite Hok.
Qed.

(** In a list that runs from the latest upload to the earliest, the
    first job is later than the second. *)
Lemma most_recent_first_head (a b : Job) (l : list Job) :
  most_recent_first (a :: b :: l) →
  Dates.later (uploadDate a) (uploadDate b).
Proof.
  intros H. apply StronglySorted_inv in H as [_ H].
  by apply List.Forall_inv in H.
Qed.

(** C8 read literally fails.  An upload through the mock API, answered
    with the id [i], is not among the jobs of the history asked for
    next, which still has the jobs 1, 2 and 3 only.  And nothing orders
    the list on the way: a backend that answers oldest first is shown
    oldest first by the history view. *)
Lemma history_keeps_the_order_it_is_given :
  ¬ LiteralAnswers.uploads_enter_history
  ∧ ¬ LiteralAnswers.history_shown_most_recent_first.
Proof.
  split.
  - intros H.
    destruct (H [] {| fraction_digits := [18%nat] |}
                {| upload_success := true; imageId := "i";
                   upload_message := "Image uploaded successfully";
                   originalImageUrl := "/mock-image-url" |}
                {| history_success := true;
                   history_data := mockEnhancementHistory |}
                eq_refl)
      as (j & Hj & Hid).
    cbn [history_data imageId] in Hj, Hid.
    unfold mockEnhancementHistory in Hj.
    rewrite !elem_of_cons in Hj.
    destruct Hj as [-> | [-> | [-> | Hj]]]; try discriminate Hid.
    by apply elem_of_nil in Hj.
  - intros H.
    specialize (H (list File) SampleAnswers.stored_name_server
                  SampleHistory.idle
                  {| history_success := true;
                     history_data := rev mockEnhancementHistory |}
                  eq_refl eq_refl).
    change (History.history
              (History.ui
                 (final (History.loadHistory SampleAnswers.stored_name_server)
                    SampleHistory.idle)))
      with (rev mockEnhancementHistory) in H.
    unfold mockEnhancementHistory in H. cbn [rev app] in H.
    apply most_recent_first_head in H.
    vm_compute in H. discriminate H.
Qed.

(** The mock at work: an upload with the draw 0.5, then a history query. *)
Lemma run_upload_then_history :
  run mockEnhancementHistory
      [call_uploadImage [] {| fraction_digits := [18%nat] |};
       call_getEnhancementHistory]
  = (mockEnhancementHistory,
     [reply_upload
        (Resolved {| upload_success := true; imageId := "i";
                     upload_message := "Image uploaded successfully";
                     originalImageUrl := "/mock-image-url" |});
      reply_history
        (Resolved {| history_success := true;
                     history_data := mockEnhancementHistory |})]).
Proof. reflexivity. Qed.

(** C9.  Whatever calls are made to the mock API, every job in the
    history array, and every job any reply carries, has the enhancement
    type [Grayscale + Sharpening]. *)
Theorem enhancementType_fixed (calls : list Call) :
  (∀ j, j ∈ fst (run mockEnhancementHistory calls) →
        enhancementType j = "Grayscale + Sharpening")
  ∧ (∀ r j, r ∈ snd (run mockEnhancementHistory calls) → j ∈ jobs_of r →
            enhancementType j = "Grayscale + Sharpening").
Proof.
  assert (∀ j, j ∈ mockEnhancementHistory →
               enhancementType j = "Grayscale + Sharpening") as Hinit.
  { intros j Hj. unfold mockEnhancementHistory in Hj.
    repeat (apply elem_of_cons in Hj as [-> | Hj]; [done|]).
    by apply elem_of_nil in Hj. }
  split.
  - intros j. rewrite run_store. apply Hinit.
  - intros r j Hr Hj. apply Hinit. by eapply run_replies.
Qed.

Lemma length_string_of_digits (ds : list nat) :
  String.length (string_of_digits ds) = length ds.
Proof. induction ds as [|d ds IH]; cbn; congruence. Qed.

Lemma substring_string_of_digits (n : nat) :
  ∀ ds, String.substring 0 n (string_of_digits ds)
        = string_of_digits (take n ds).
Proof.
  induction n as [|n IH]; intros [|d ds]; cbn; try done.
  by rewrite IH.
Qed.

Lemma substr_random (random : Draw) :
  JS.substr (random_toString36 random) 2 9
  = string_of_digits (take 9 (fraction_digits random)).
Proof.
  unfold JS.substr, random_toString36.
  destruct (fraction_digits random) as [|d ds]; [done|].
  change (String.substring 2 9 ("0." +:+ string_of_digits (d :: ds)))
    with (String.substring 0 9 (string_of_digits (d :: ds))).
  apply substring_string_of_digits.
Qed.

(** C10, as the code has it.  For every form data and every random draw
    [uploadImage] resolves with success and an id made of the first nine
    base-36 fraction digits of the draw: at most nine characters, and
    exactly nine when the draw prints at least nine digits.  The form data
    is never looked at, and the history array is left as it is. *)
Theorem mock_upload_always_succeeds (formData : FormData) (random : Draw) :
  ∃ r,
    uploadImage formData random = Resolved r
    ∧ upload_success r = true
    ∧ imageId r = string_of_digits (take 9 (fraction_digits random))
    ∧ String.length (imageId r)
      = Nat.min 9 (length (fraction_digits random))
    ∧ uploadImage [] random = Resolved r
    ∧ ∀ store, fst (mockAPI store (call_uploadImage formData random)) = store.
Proof.
  exists {| upload_success := true;
            imageId := string_of_digits (take 9 (fraction_digits random));
            upload_message := "Image uploaded successfully";
            originalImageUrl := "/mock-image-url" |}.
  assert (∀ fd, uploadImage fd random
                = Resolved
                    {| upload_success := true;
                       imageId :=
                         string_of_digits (take 9 (fraction_digits random));
                       upload_message := "Image uploaded successfully";
                       originalImageUrl := "/mock-image-url" |}) as Hrun.
  { intros fd. unfold uploadImage. by rewrite substr_random. }
  split; [apply Hrun|]. split; [done|]. split; [done|].
  split; [|split; [apply Hrun | done]].
  cbn [imageId]. by rewrite length_string_of_digits, length_take.
Qed.

(** C10 read literally fails: the draw 0.5 prints as [0.i] in base 36, and
    the id is the single character [i]. *)
Lemma mock_upload_short_id : ¬ Literal.upload_id_has_nine_characters.
Proof.
  intros H.
  destruct (H [] {| fraction_digits := [18%nat] |}) as (r & Hr & _ & Hlen).
  injection Hr as <-. vm_compute in Hlen. discriminate Hlen.
Qed.

End MockApi.

(** ** More on the pixel pass *)

Section PixelPassMore.

Import JS Enhancement.

(** The gray levels, one by one. *)
Lemma gray_table :
  forallb (fun n => channel (Z.of_nat n) (Z.of_nat n) (Z.of_nat n)
                    =? Z.min 255 ((12 * Z.of_nat n + 5) / 10))
          (seq 0 256) = true.
Proof. by vm_compute. Qed.

Lemma channel_gray (v : Z) :
  is_byte v → channel v v v = Z.min 255 ((12 * v + 5) / 10).
Proof.
  intros [Hlo Hhi].
  pose proof gray_table as Htable.
  rewrite forallb_forall in Htable.
  specialize (Htable (Z.to_nat v)).
  rewrite Z2Nat.id in Htable by lia.
  apply Z.eqb_eq, Htable, in_seq. lia.
Qed.

(** Any buffer, of any length: the pass ends with a buffer of the same
    length, every fourth entry (the alpha bytes) is the input's, and when
    the input holds bytes so does the output. *)
Theorem pixel_pass_keeps_shape (data : list Z) :
  Forall is_byte data →
  ∃ out,
    pixel_pass data = Some out
    ∧ length out = length data
    ∧ (∀ q, out !! (4 * q + 3)%nat = data !! (4 * q + 3)%nat)
    ∧ Forall is_byte out.
Proof.
  intros Hbytes.
  destruct (pixel_loop_spec (length data) 0%nat data)
    as (out & Hrun & Hlen & _ & _ & Halpha); [lia|].
  exists out. split; [exact Hrun|]. split; [exact Hlen|]. split.
  - intros q. specialize (Halpha q). by rewrite !Nat.add_0_l in Halpha.
  - by eapply pixel_pass_bytes.
Qed.

Lemma pixel_pass_keeps_shape_witness :
  ∃ out,
    pixel_pass [200; 100; 50; 255; 9; 9; 9] = Some out
    ∧ length out = 7%nat
    ∧ (∀ q, out !! (4 * q + 3)%nat
            = [200; 100; 50; 255; 9; 9; 9] !! (4 * q + 3)%nat)
    ∧ Forall is_byte out.
Proof.
  apply (pixel_pass_keeps_shape [200; 100; 50; 255; 9; 9; 9]).
  repeat constructor; unfold is_byte; lia.
Defined.

(** A pixel that is already gray, (v, v, v, A), comes out as (c, c, c, A)
    with c = 1.2 v rounded to the nearest integer and capped at 255: it is
    never darker than before, and it is white exactly from v = 213 on. *)
Theorem gray_pixel_boost (data : list Z) (k : nat) (v a : Z) :
  is_byte v →
  data !! (4 * k)%nat = Some v →
  data !! (4 * k + 1)%nat = Some v →
  data !! (4 * k + 2)%nat = Some v →
  data !! (4 * k + 3)%nat = Some a →
  let c := Z.min 255 ((12 * v + 5) / 10) in
  ∃ out,
    pixel_pass data = Some out
    ∧ out !! (4 * k)%nat = Some c
    ∧ out !! (4 * k + 1)%nat = Some c
    ∧ out !! (4 * k + 2)%nat = Some c
    ∧ out !! (4 * k + 3)%nat = Some a
    ∧ v <= c
    ∧ (c = 255 ↔ 213 <= v).
Proof.
  intros Hv H0 H1 H2 H3. cbv zeta.
  destruct (pixel_pass_pixel data k v v v a H0 H1 H2 H3)
    as (out & Hrun & _ & Hr & Hg & Hb & Ha).
  rewrite (channel_gray v Hv) in Hr, Hg, Hb.
  exists out. repeat (split; [assumption|]).
  destruct Hv as [Hlo Hhi].
  pose proof (Z.div_mod (12 * v + 5) 10 ltac:(lia)) as Hdiv.
  pose proof (Z.mod_pos_bound (12 * v + 5) 10 ltac:(lia)) as Hmod.
  split; [lia|]. split; lia.
Qed.

Lemma gray_pixel_boost_witness :
  ∃ out,
    pixel_pass [100; 100; 100; 77] = Some out
    ∧ out !! 0%nat = Some 120
    ∧ out !! 1%nat = Some 120
    ∧ out !! 2%nat = Some 120
    ∧ out !! 3%nat = Some 77
    ∧ 100 <= 120
    ∧ (120 = 255 ↔ 213 <= 100).
Proof.
  apply (gray_pixel_boost [100; 100; 100; 77] 0 100 77);
    [unfold is_byte; lia | reflexivity..].
Defined.

(** Enhancing an enhanced image: the output of the pass is gray, so a second
    pass boosts each colour channel c of the first output to 1.2 c rounded
    and capped at 255, and still leaves the alpha byte alone.  The pass is
    not idempotent: every channel from 3 to 254 grows again. *)
Theorem second_pass_boost (data : list Z) (k : nat) (r g b a : Z) :
  data !! (4 * k)%nat = Some r →
  data !! (4 * k + 1)%nat = Some g →
  data !! (4 * k + 2)%nat = Some b →
  data !! (4 * k + 3)%nat = Some a →
  let c := channel r g b in
  let c2 := Z.min 255 ((12 * c + 5) / 10) in
  ∃ out out2,
    pixel_pass data = Some out
    ∧ pixel_pass out = Some out2
    ∧ out2 !! (4 * k)%nat = Some c2
    ∧ out2 !! (4 * k + 1)%nat = Some c2
    ∧ out2 !! (4 * k + 2)%nat = Some c2
    ∧ out2 !! (4 * k + 3)%nat = Some a
    ∧ c <= c2
    ∧ (3 <= c <= 254 → c < c2).
Proof.
  intros H0 H1 H2 H3. cbv zeta.
  destruct (pixel_pass_pixel data k r g b a H0 H1 H2 H3)
    as (out & Hrun & _ & Hr & Hg & Hb & Ha).
  assert (is_byte (channel r g b)) as Hc by apply ToUint8Clamp_range.
  destruct (pixel_pass_pixel out k _ _ _ a Hr Hg Hb Ha)
    as (out2 & Hrun2 & _ & Hr2 & Hg2 & Hb2 & Ha2).
  rewrite (channel_gray _ Hc) in Hr2, Hg2, Hb2.
  exists out, out2. repeat (split; [assumption|]).
  destruct Hc as [Hlo Hhi]. revert Hlo Hhi.
  generalize (channel r g b). intros c Hlo Hhi.
  pose proof (Z.div_mod (12 * c + 5) 10 ltac:(lia)) as Hdiv.
  pose proof (Z.mod_pos_bound (12 * c + 5) 10 ltac:(lia)) as Hmod.
  split; lia.
Qed.

Lemma second_pass_boost_witness :
  ∃ out out2,
    pixel_pass [200; 100; 50; 255] = Some out
    ∧ pixel_pass out = Some out2
    ∧ out2 !! 0%nat = Some 179
    ∧ out2 !! 1%nat = Some 179
    ∧ out2 !! 2%nat = Some 179
    ∧ out2 !! 3%nat = Some 255
    ∧ 149 <= 179
    ∧ (3 <= 149 <= 254 → 149 < 179).
Proof.
  exact (second_pass_boost [200; 100; 50; 255] 0 200 100 50 255
           eq_refl eq_refl eq_refl eq_refl).
Defined.

End PixelPassMore.

(** ** The simulated component as a whole *)

Section SimulatedWhole.

Import Browser Handler Simulated SimulatedFlow.

Variable decode : DataURL → option ImageData.
Variable encoder_available : string → bool.

(** The split of [simulateEnhancement] at its timeout puts the same handler
    together again when nothing runs in between. *)
Lemma simulateEnhancement_split (st : State) :
  simulateEnhancement decode encoder_available st
  = bind enhancement_started
      (fun started =>
         match started with
         | None => ret tt
         | Some src => enhancement_finished decode encoder_available src
         end) st.
Proof.
  unfold simulateEnhancement, enhancement_started, enhancement_finished,
    bind, gets.
  destruct (originalImage st) as [src|]; [|done].
  cbn. destruct (decode src) as [img|]; [|done].
  destruct (Enhancement.pixel_pass (data img)); done.
Qed.

Lemma handleFileSelect_accepts (file : File) (st : State) :
  type file ∈ ["image/jpeg"; "image/jpg"; "image/png"] →
  size file <= 10 * 1024 * 1024 →
  handleFileSelect (Some file) st
  = (tt,
     {| originalImage := Some (readAsDataURL file);
        enhancedImage := None;
        isProcessing := isProcessing st;
        uploadedFile := Some file |},
     [toast toast_uploaded]).
Proof.
  intros Htype Hsize. unfold handleFileSelect, validTypes, maxSize.
  rewrite (includes_true _ _ Htype).
  destruct (Z.gtb_spec (size file) (10 * 1024 * 1024)); [lia|done].
Qed.

(** A canvas that gives opaque pixels back as they were written gives an
    opaque image back as it is. *)
Lemma read_back_opaque (back : Z → Z → Z) :
  (∀ c, back c 255 = c) →
  ∀ (n : nat) (d : list Z),
    (length d ≤ n)%nat → Bitmap.opaque d → Bitmap.read_back back d = d.
Proof.
  intros Hback. induction n as [|n IH]; intros d Hn Hop.
  - destruct d; [done | cbn in Hn; lia].
  - destruct d as [|r [|g [|b [|a rest]]]]; try done.
    cbn [Bitmap.read_back].
    assert (a = 255) as -> by (by apply (Hop 0%nat)).
    rewrite !Hback. do 4 f_equal. apply IH; [cbn in Hn; lia|].
    intros q x Hx. apply (Hop (S q)).
    replace (4 * S q + 3)%nat with (S (S (S (S (4 * q + 3))))) by lia.
    exact Hx.
Qed.

(** The canvas that rounds to nearest keeps opaque pixels, and gives a
    translucent pixel back darker than it was written. *)
Lemma premultiplied_opaque (c : Z) : Bitmap.premultiplied c 255 = c.
Proof.
  unfold Bitmap.premultiplied. cbn [Z.eqb].
  change (255 / 2) with 127.
  rewrite (Z.div_add_l c 255 127) by lia.
  change (127 / 255) with 0. rewrite Z.add_0_r.
  rewrite (Z.div_add_l c 255 127) by lia.
  change (127 / 255) with 0. lia.
Qed.

Lemma premultiplied_translucent :
  Bitmap.read_back Bitmap.premultiplied [22; 22; 22; 40] = [19; 19; 19; 40].
Proof. reflexivity. Qed.

(** Upload, enhance, download: for an accepted file that loads as an
    opaque image, the link clicked at the end points to the PNG data URL
    of the canvas on which the pixel pass of the uploaded image was put,
    in the image's own dimensions and with as many bytes, under the name
    [enhanced_medical_image_<now>.png]; the three success toasts are
    shown in order.  The pixel pass keeps the image opaque, so on a
    canvas that gives opaque pixels back as written the pixels of that
    PNG are the bytes of the pixel pass.  (Where alpha is below 255 the
    canvas rounds the colours, see [premultiplied_translucent], and
    nothing is said.) *)
Theorem simulated_pipeline
    (st : State) (file : File) (img : ImageData) (now : Z)
    (back : Z → Z → Z) :
  type file ∈ ["image/jpeg"; "image/jpg"; "image/png"] →
  size file <= 10 * 1024 * 1024 →
  decode (readAsDataURL file) = Some img →
  Bitmap.opaque (data img) →
  (∀ c, back c 255 = c) →
  let run :=
    (handleFileSelect (Some file) >>>
     simulateEnhancement decode encoder_available >>>
     downloadEnhancedImage now)%handler in
  ∃ out link,
    Enhancement.pixel_pass (data img) = Some out
    ∧ length out = length (data img)
    ∧ Bitmap.opaque out
    ∧ (run st).1.1 = Some link
    ∧ href link
      = toDataURL encoder_available "image/png"
          {| width := width img; height := height img; data := out |}
    ∧ mediaType (href link) = "image/png"
    ∧ Bitmap.png_pixels back (href link) = Some out
    ∧ download link
      = "enhanced_medical_image_" +:+ Z_to_string now +:+ ".png"
    ∧ effects run st
      = [toast toast_uploaded; toast toast_enhanced;
         toast toast_download_started].
Proof.
  intros Htype Hsize Himg Hopaque Hback. cbv zeta.
  destruct (pixel_loop_spec (length (data img)) 0%nat (data img))
    as (out & Hout & Hlen & _ & _ & Halpha); [lia|].
  assert (Bitmap.opaque out) as Hout_opaque.
  { intros q a Ha. apply (Hopaque q).
    specialize (Halpha q). rewrite !Nat.add_0_l in Halpha.
    by rewrite <- Halpha. }
  exists out,
    {| href :=
         toDataURL encoder_available "image/png"
           {| width := width img; height := height img; data := out |};
       download :=
         "enhanced_medical_image_" +:+ Z_to_string now +:+ ".png" |}.
  assert (∃ st',
            (handleFileSelect (Some file) >>>
             simulateEnhancement decode encoder_available >>>
             downloadEnhancedImage now)%handler st
            = (Some {| href :=
                         toDataURL encoder_available "image/png"
                           {| width := width img; height := height img;
                              data := out |};
                       download :=
                         "enhanced_medical_image_" +:+ Z_to_string now
                         +:+ ".png" |},
               st',
               [toast toast_uploaded; toast toast_enhanced;
                toast toast_download_started]))
    as [st' Hrun].
  { eexists. unfold bind at 1.
    rewrite (handleFileSelect_accepts file st Htype Hsize).
    unfold bind, simulateEnhancement, gets. cbn.
    rewrite Himg. unfold Enhancement.pixel_pass. rewrite Hout. cbn.
    reflexivity. }
  split; [exact Hout|]. split; [exact Hlen|]. split; [exact Hout_opaque|].
  unfold effects. rewrite Hrun.
  split; [done|]. split; [done|]. split; [done|].
  split; [|done].
  unfold Bitmap.png_pixels. cbn [href toDataURL content data].
  f_equal. by apply (read_back_opaque back Hback (length out)).
Qed.

(** Picking an accepted file withdraws the enhanced image of the previous
    one: the Download button is disabled, and the download handler, were it
    called, would click nothing and show nothing. *)
Theorem selection_withdraws_enhanced (st : State) (file : File) (now : Z) :
  type file ∈ ["image/jpeg"; "image/jpg"; "image/png"] →
  size file <= 10 * 1024 * 1024 →
  let st' := final (handleFileSelect (Some file)) st in
  enhancedImage st' = None
  ∧ download_disabled st' = true
  ∧ downloadEnhancedImage now st' = (None, st', []).
Proof.
  intros Htype Hsize. cbv zeta. unfold final.
  rewrite (handleFileSelect_accepts file st Htype Hsize). done.
Qed.


(** Neither picking a file nor clicking Download ever clears the
    processing flag. *)
Lemma acts_keep_processing (later : list Action) :
  ∀ st, isProcessing st = true → isProcessing (final (acts later) st) = true.
Proof.
  induction later as [|a later IH]; intros st Hst; [done|].
  unfold final in *. cbn [acts]. unfold bind.
  destruct (act a st) as [[u st1] log1] eqn:Hact.
  specialize (IH st1).
  destruct (acts later st1) as [[u2 st2] log2]. cbn in *.
  apply IH. clear IH.
  destruct a as [file|now]; cbn [act] in Hact.
  - unfold handleFileSelect, bind, ret, emit, setUploadedFile,
      setOriginalImage, setEnhancedImage, modify in Hact.
    destruct file as [file|]; [|simplify_eq; done].
    destruct (negb _); [simplify_eq; done|].
    destruct (_ >? _); simplify_eq; done.
  - unfold bind, downloadEnhancedImage, gets, bind, ret, emit in Hact.
    destruct (enhancedImage st); simplify_eq; done.
Qed.

(** An image that never loads leaves the component processing for good:
    nothing is reported, the Enhance button stays disabled, and no file the
    user picks and no download click afterwards brings it back. *)
Theorem processing_never_recovers
    (st : State) (src : DataURL) (later : list Action) :
  originalImage st = Some src →
  decode src = None →
  let stuck := final (simulateEnhancement decode encoder_available) st in
  effects (simulateEnhancement decode encoder_available) st = []
  ∧ enhancedImage stuck = enhancedImage st
  ∧ enhance_disabled (final (acts later) stuck) = true.
Proof.
  intros Hsrc Hdecode. cbv zeta.
  assert (simulateEnhancement decode encoder_available st
          = (tt,
             {| originalImage := originalImage st;
                enhancedImage := enhancedImage st;
                isProcessing := true;
                uploadedFile := uploadedFile st |}, [])) as Hrun.
  { destruct st as [o e p u]. cbn in Hsrc. subst o.
    unfold simulateEnhancement, bind, gets, setIsProcessing, modify, ret.
    cbn. by rewrite Hdecode. }
  assert (final (simulateEnhancement decode encoder_available) st
          = {| originalImage := originalImage st;
               enhancedImage := enhancedImage st;
               isProcessing := true;
               uploadedFile := uploadedFile st |}) as ->
      by (unfold final; by rewrite Hrun).
  unfold effects. rewrite Hrun. cbn [fst snd enhancedImage].
  split; [done|]. split; [done|].
  unfold enhance_disabled. by apply acts_keep_processing.
Qed.

End SimulatedWhole.

Lemma simulated_pipeline_witness :
  ∃ out link,
    Enhancement.pixel_pass [200; 100; 50; 255] = Some out
    ∧ ((Handler.bind (Simulated.handleFileSelect (Some Sample.jpeg_at_limit))
          (fun _ =>
             Handler.bind
               (Simulated.simulateEnhancement
                  SampleCanvas.decode SampleCanvas.encoder_available)
               (fun _ => SimulatedFlow.downloadEnhancedImage 1700000000000)))
         Sample.simulated_idle).1.1
      = Some link
    ∧ Browser.mediaType (SimulatedFlow.href link) = "image/png"
    ∧ Bitmap.png_pixels Bitmap.premultiplied (SimulatedFlow.href link)
      = Some out
    ∧ SimulatedFlow.download link
      = "enhanced_medical_image_1700000000000.png".
Proof.
  assert (Browser.type Sample.jpeg_at_limit
          ∈ ["image/jpeg"; "image/jpg"; "image/png"])
    as Htype by (rewrite !elem_of_cons; auto).
  assert (Bitmap.opaque [200; 100; 50; 255]) as Hopaque.
  { intros q a Ha. apply lookup_lt_Some in Ha as Hq. cbn in Hq.
    assert (q = 0%nat) as -> by lia. cbn in Ha. by simplify_eq. }
  destruct (simulated_pipeline
              SampleCanvas.decode SampleCanvas.encoder_available
              Sample.simulated_idle Sample.jpeg_at_limit
              {| Browser.width := 1; Browser.height := 1;
                 Browser.data := [200; 100; 50; 255] |}
              1700000000000 Bitmap.premultiplied
              Htype ltac:(discriminate) eq_refl Hopaque premultiplied_opaque)
    as (out & link & Hout & _ & _ & Hlink & _ & Htype' & Hpixels & Hname & _).
  exists out, link.
  split; [exact Hout|]. split; [exact Hlink|]. split; [exact Htype'|].
  split; [exact Hpixels | exact Hname].
Defined.

Lemma selection_withdraws_enhanced_witness :
  Simulated.enhancedImage
    (Handler.final (Simulated.handleFileSelect (Some Sample.jpeg_at_limit))
       SampleCanvas.loaded) = None
  ∧ SimulatedFlow.download_disabled
      (Handler.final (Simulated.handleFileSelect (Some Sample.jpeg_at_limit))
         SampleCanvas.loaded) = true.
Proof.
  assert (Browser.type Sample.jpeg_at_limit
          ∈ ["image/jpeg"; "image/jpg"; "image/png"])
    as Htype by (rewrite !elem_of_cons; auto).
  destruct (selection_withdraws_enhanced SampleCanvas.loaded
              Sample.jpeg_at_limit 0 Htype ltac:(discriminate))
    as (Hnone & Hdisabled & _).
  split; [exact Hnone | exact Hdisabled].
Defined.


Lemma processing_never_recovers_witness :
  SimulatedFlow.enhance_disabled
    (Handler.final
       (SimulatedFlow.acts
          [SimulatedFlow.select_file (Some SampleFlow.small_png);
           SimulatedFlow.click_download 0])
       (Handler.final
          (Simulated.simulateEnhancement
             SampleFlow.never_loads SampleCanvas.encoder_available)
          SampleCanvas.loaded)) = true.
Proof.
  destruct (processing_never_recovers
              SampleFlow.never_loads SampleCanvas.encoder_available
              SampleCanvas.loaded SampleCanvas.jpeg_url
              [SimulatedFlow.select_file (Some SampleFlow.small_png);
               SimulatedFlow.click_download 0]
              eq_refl eq_refl)
    as (_ & _ & Hstuck).
  exact Hstuck.
Defined.

(** ** The backend-connected component as a whole *)

Section BackedWhole.

Import Browser Api Handler Backed BackedFlow.

Context {B : Type}.
Variable srv : Server B.
Variable post_enhance : B → string → B * Outcome EnhanceData.
Variable toFixed1 : float → string.

(** What [handleFileSelect] leaves behind for an accepted file, by the
    answer of the backend. *)
Lemma backed_select_result (file : File) (w : World B) :
  type file ∈ ["image/jpeg"; "image/jpg"; "image/png"] →
  size file <= 10 * 1024 * 1024 →
  handleFileSelect srv (Some file) w
  = (tt,
     {| ui :=
          {| originalImage :=
               match (post_upload srv (backend w) file).2 with
               | Rejected _ => None
               | Resolved _ => Some (readAsDataURL file)
               end;
             enhancedImage := None;
             isProcessing := isProcessing (ui w);
             isUploading := false;
             uploadedFile :=
               match (post_upload srv (backend w) file).2 with
               | Rejected _ => None
               | Resolved _ => Some file
               end;
             currentImageId :=
               match (post_upload srv (backend w) file).2 with
               | Resolved data =>
                   if upload_success data then Some (imageId data) else None
               | Rejected _ => None
               end |};
        backend := (post_upload srv (backend w) file).1 |},
     request "POST" (API srv +:+ "/images/upload") (Some file)
     :: match (post_upload srv (backend w) file).2 with
        | Resolved data =>
            if upload_success data
            then [toast (toast_upload_successful (upload_message data))]
            else []
        | Rejected detail =>
            [console_error "Upload error:";
             toast (toast_upload_failed detail)]
        end).
Proof.
  intros Htype Hsize.
  unfold handleFileSelect, validTypes, maxSize.
  rewrite (includes_true _ _ Htype).
  destruct (Z.gtb_spec (size file) (10 * 1024 * 1024)) as [|_]; [lia|].
  cbn [negb].
  unfold bind, setUploadedFile, setIsUploading, setEnhancedImage,
    setCurrentImageId, setOriginalImage, update, modify, axios_post_upload.
  cbn [ui backend].
  destruct (post_upload srv (backend w) file) as [b [data|detail]]; cbn.
  - destruct (upload_success data); done.
  - done.
Qed.

(** What the selection leaves behind for an accepted file, by the answer
    of the backend, in either order of the preview and the answer. *)
Lemma backed_select_result_in
    (file : File) (w : World B) (o : BackedSelect.Order) :
  type file ∈ ["image/jpeg"; "image/jpg"; "image/png"] →
  size file <= 10 * 1024 * 1024 →
  ui (final (BackedSelect.handleFileSelect_in srv o (Some file)) w)
  = {| originalImage :=
         match (post_upload srv (backend w) file).2, o with
         | Rejected _, BackedSelect.preview_first => None
         | _, _ => Some (readAsDataURL file)
         end;
       enhancedImage := None;
       isProcessing := isProcessing (ui w);
       isUploading := false;
       uploadedFile :=
         match (post_upload srv (backend w) file).2 with
         | Rejected _ => None
         | Resolved _ => Some file
         end;
       currentImageId :=
         match (post_upload srv (backend w) file).2 with
         | Resolved data =>
             if upload_success data then Some (imageId data) else None
         | Rejected _ => None
         end |}.
Proof.
  intros Htype Hsize. unfold final.
  by rewrite (handleFileSelect_in_accepted srv file w o Htype Hsize).
Qed.

(** What the selection has set when it starts to wait for the answer. *)
Lemma backed_select_waiting (file : File) (w : World B) :
  type file ∈ ["image/jpeg"; "image/jpg"; "image/png"] →
  size file <= 10 * 1024 * 1024 →
  ui (final (BackedSelect.handleFileSelect_started srv (Some file)) w)
  = {| originalImage := originalImage (ui w);
       enhancedImage := None;
       isProcessing := isProcessing (ui w);
       isUploading := true;
       uploadedFile := Some file;
       currentImageId := None |}.
Proof.
  intros Htype Hsize.
  unfold final, BackedSelect.handleFileSelect_started, validTypes, maxSize.
  rewrite (includes_true _ _ Htype).
  destruct (Z.gtb_spec (size file) (10 * 1024 * 1024)) as [|_]; [lia|].
  cbn [negb].
  unfold bind, setUploadedFile, setIsUploading, setEnhancedImage,
    setCurrentImageId, update, modify, ret, axios_post_upload.
  cbn [ui backend].
  destruct (post_upload srv (backend w) file) as [b r]. reflexivity.
Qed.

(** The buttons around a selection of an accepted file that is made
    while no enhancement and no upload is in flight.  While the upload
    waits for its answer all three buttons are disabled, so no other
    handler of the component starts or ends in between.  Once the
    selection is over, in either order of the preview and the answer,
    Select Image is enabled again and Download is disabled, whatever the
    backend answered; Enhance is enabled exactly when the backend
    accepted the upload under a non-empty id. *)
Theorem buttons_after_selection
    (file : File) (w : World B) (o : BackedSelect.Order) :
  type file ∈ ["image/jpeg"; "image/jpg"; "image/png"] →
  size file <= 10 * 1024 * 1024 →
  isProcessing (ui w) = false →
  isUploading (ui w) = false →
  let waiting :=
    ui (final (BackedSelect.handleFileSelect_started srv (Some file)) w) in
  let after :=
    ui (final (BackedSelect.handleFileSelect_in srv o (Some file)) w) in
  (select_disabled waiting = true
   ∧ enhance_disabled waiting = true
   ∧ download_disabled waiting = true)
  ∧ select_disabled after = false
  ∧ download_disabled after = true
  ∧ (enhance_disabled after = false
     ↔ ∃ data,
         (post_upload srv (backend w) file).2 = Resolved data
         ∧ upload_success data = true
         ∧ imageId data ≠ EmptyString).
Proof.
  intros Htype Hsize Hidle Hfree. cbv zeta.
  rewrite (backed_select_waiting file w Htype Hsize).
  rewrite (backed_select_result_in file w o Htype Hsize).
  unfold select_disabled, enhance_disabled, download_disabled.
  cbn [isProcessing isUploading currentImageId enhancedImage truthy].
  rewrite Hidle. cbn [orb].
  split; [done|]. split; [done|]. split; [done|].
  destruct (post_upload srv (backend w) file).2 as [data|detail].
  - destruct (upload_success data) eqn:Hok.
    + destruct (imageId data) as [|c rest] eqn:Hid; cbn [truthy].
      * split; [done|]. intros (d & [= <-] & _ & Hne). congruence.
      * split; [|done]. intros _.
        exists data. rewrite Hid. repeat split; done.
    + cbn [truthy]. split; [done|].
      intros (d & [= <-] & Hok' & _). congruence.
  - cbn [truthy]. split; [done|]. intros (d & Hd & _). done.
Qed.

(** Why the selection has to start with no enhancement in flight: the
    answer to an enhancement that was started before can land while the
    upload waits, and then the selection ends with Enhance and Download
    both enabled, the enhanced image being the one of the file that was
    replaced. *)
Lemma pending_enhancement_lands_in_selection :
  let late :=
    (let* started :=
       BackedSelect.handleFileSelect_started Sample.server
         (Some SampleFlow.small_png) in
     match started with
     | None => ret tt
     | Some (file, response) =>
         enhanceImage_settled Sample.server SampleFlow.toFixed1 "scan.jpg"
           (Resolved {| success := true;
                        processingTime := Some 1.5%float;
                        enhancementType := Some "Grayscale + Sharpening" |}) >>>
         BackedSelect.preview_loaded file >>>
         BackedSelect.handleFileSelect_settled response
     end)%handler in
  let after := ui (final late SampleAnswers.still_processing) in
  enhance_disabled after = false
  ∧ download_disabled after = false
  ∧ enhancedImage after
    = Some "http://localhost:8001/api/images/enhanced/scan.jpg"
  ∧ currentImageId after = Some "knee.png".
Proof. repeat split; reflexivity. Qed.

(** Without a current image neither Enhance nor Download reaches the
    backend: Enhance only shows "No image to enhance", Download does
    nothing at all. *)
Theorem nothing_without_current_image (w : World B) (now : Z) :
  truthy (currentImageId (ui w)) = None →
  enhanceImage srv post_enhance toFixed1 w = (tt, w, [toast toast_no_image])
  ∧ downloadEnhancedImage srv now w = (tt, w, []).
Proof.
  intros Hnone.
  unfold enhanceImage, enhanceImage_started, downloadEnhancedImage, bind, gets.
  rewrite Hnone. done.
Qed.

(** [enhanceImage] from start to end, for a current image [id]: one POST to
    [/images/{id}/enhance]; the processing flag is off again whatever the
    answer; a successful answer shows the enhanced image of [id], even when
    it lacks [processingTime] (then the failure toast is shown all the
    same); an unsuccessful answer changes nothing and shows nothing; a
    rejection changes nothing and is reported. *)
Theorem enhance_image_outcomes (w : World B) (id : string) :
  currentImageId (ui w) = Some id →
  id ≠ EmptyString →
  let m := enhanceImage srv post_enhance toFixed1 in
  let answer := (post_enhance (backend w) id).2 in
  let sent :=
    request "POST" (API srv +:+ "/images/" +:+ id +:+ "/enhance") None in
  requests (effects m w) = [sent]
  ∧ backend (final m w) = (post_enhance (backend w) id).1
  ∧ isProcessing (ui (final m w)) = false
  ∧ currentImageId (ui (final m w)) = Some id
  ∧ (∀ data, answer = Resolved data → success data = true →
       enhancedImage (ui (final m w))
       = Some (API srv +:+ "/images/enhanced/" +:+ id)
       ∧ (∀ seconds, processingTime data = Some seconds →
            effects m w
            = [sent;
               toast (toast_enhancement_completed
                        (toFixed1 seconds) (enhancementType data))])
       ∧ (processingTime data = None →
            effects m w
            = [sent; console_error "Enhancement error:";
               toast (toast_enhancement_failed None)]))
  ∧ (∀ data, answer = Resolved data → success data = false →
       enhancedImage (ui (final m w)) = enhancedImage (ui w)
       ∧ effects m w = [sent])
  ∧ (∀ detail, answer = Rejected detail →
       enhancedImage (ui (final m w)) = enhancedImage (ui w)
       ∧ effects m w
         = [sent; console_error "Enhancement error:";
            toast (toast_enhancement_failed detail)]).
Proof.
  intros Hid Hne. cbv zeta.
  unfold final, effects, enhanceImage, enhanceImage_started, bind, gets.
  rewrite Hid. destruct id as [|c id]; [done|]. cbn [truthy].
  unfold setIsProcessing, update, modify, axios_post_enhance.
  cbn [ui backend fst snd].
  destruct (post_enhance (backend w) (String c id)) as [b [data|detail]].
  - unfold enhanceImage_settled, bind, setEnhancedImage, setIsProcessing,
      update, modify, emit, ret.
    cbn [ui backend].
    destruct (success data) eqn:Hok; [destruct (processingTime data) eqn:Ht|];
      cbn; (repeat split; try done); intros; simplify_eq; try done;
      (repeat split; try done); intros; simplify_eq; try done;
      congruence.
  - cbn. (repeat split; try done); intros; simplify_eq; done.
Qed.

(** The rest of [enhanceImage] works on the image id that was current
    when Enhance was clicked.  If an accepted file is picked and uploaded
    while the answer is awaited, the component ends up showing the enhanced
    version of the old image while the current image is the new one: the
    Download button is enabled and fetches the new, not yet enhanced, image. *)
Theorem enhancement_overtaken_by_upload
    (w : World B) (old : string) (file : File)
    (data : EnhanceData) (up : UploadResponse) (now : Z) :
  currentImageId (ui w) = Some old →
  old ≠ EmptyString →
  type file ∈ ["image/jpeg"; "image/jpg"; "image/png"] →
  size file <= 10 * 1024 * 1024 →
  (post_enhance (backend w) old).2 = Resolved data →
  success data = true →
  (post_upload srv (post_enhance (backend w) old).1 file).2 = Resolved up →
  upload_success up = true →
  imageId up ≠ EmptyString →
  let run :=
    (let* started := enhanceImage_started srv post_enhance in
     handleFileSelect srv (Some file) >>>
     match started with
     | None => ret tt
     | Some (id, response) => enhanceImage_settled srv toFixed1 id response
     end)%handler in
  let after := final run w in
  enhancedImage (ui after) = Some (API srv +:+ "/images/enhanced/" +:+ old)
  ∧ currentImageId (ui after) = Some (imageId up)
  ∧ uploadedFile (ui after) = Some file
  ∧ download_disabled (ui after) = false
  ∧ requests (effects (downloadEnhancedImage srv now) after)
    = [request "GET" (API srv +:+ "/images/" +:+ imageId up +:+ "/download")
         None].
Proof.
  intros Hold Hne Htype Hsize Hdata Hok Hup Hupok Hupid. cbv zeta.
  assert (enhanceImage_started srv post_enhance w
          = (Some (old, Resolved data),
             {| ui := {| originalImage := originalImage (ui w);
                         enhancedImage := enhancedImage (ui w);
                         isProcessing := true;
                         isUploading := isUploading (ui w);
                         uploadedFile := uploadedFile (ui w);
                         currentImageId := currentImageId (ui w) |};
                backend := (post_enhance (backend w) old).1 |},
             [request "POST" (API srv +:+ "/images/" +:+ old +:+ "/enhance")
                None])) as Hstarted.
  { unfold enhanceImage_started, bind, gets. rewrite Hold.
    destruct old as [|c old]; [done|]. cbn [truthy].
    unfold setIsProcessing, update, modify, axios_post_enhance, ret.
    cbn [ui backend].
    destruct (post_enhance (backend w) (String c old)) as [b o].
    cbn in Hdata. subst o. cbn. by rewrite Hold. }
  set (w1 := {| ui := _; backend := (post_enhance (backend w) old).1 |})
    in Hstarted.
  pose proof (backed_select_result file w1 Htype Hsize) as Hselect.
  assert (backend w1 = (post_enhance (backend w) old).1) as Hb by done.
  rewrite Hb, Hup, Hupok in Hselect.
  set (w2 := {| ui := _; backend := _ |}) in Hselect.
  assert (final
            (bind (enhanceImage_started srv post_enhance)
               (fun started =>
                  bind (handleFileSelect srv (Some file))
                    (fun _ =>
                       match started with
                       | None => ret tt
                       | Some (id, response) =>
                           enhanceImage_settled srv toFixed1 id response
                       end))) w
          = final (enhanceImage_settled srv toFixed1 old (Resolved data)) w2)
    as ->.
  { unfold final, bind at 1. rewrite Hstarted.
    unfold bind at 1. rewrite Hselect.
    by destruct (enhanceImage_settled srv toFixed1 old (Resolved data) w2)
      as [[u w3] log]. }
  assert (ui (final (enhanceImage_settled srv toFixed1 old (Resolved data)) w2)
          = {| originalImage := Some (readAsDataURL file);
               enhancedImage :=
                 Some (API srv +:+ "/images/enhanced/" +:+ old);
               isProcessing := false;
               isUploading := false;
               uploadedFile := Some file;
               currentImageId := Some (imageId up) |}) as Hui.
  { unfold final, enhanceImage_settled, bind, setEnhancedImage,
      setIsProcessing, update, modify, emit, ret.
    rewrite Hok. destruct (processingTime data); done. }
  rewrite Hui. cbn [enhancedImage currentImageId uploadedFile].
  split; [done|]. split; [done|]. split; [done|]. split.
  - unfold download_disabled. cbn [enhancedImage].
    destruct (API srv +:+ "/images/enhanced/" +:+ old) eqn:Hurl; [|done].
    exfalso. revert Hurl. unfold API.
    destruct (BACKEND_URL srv); discriminate.
  - unfold effects, downloadEnhancedImage, bind, gets. rewrite Hui.
    cbn [currentImageId].
    destruct (imageId up) as [|c rest] eqn:Hid; [done|]. cbn [truthy].
    unfold axios_get_download.
    destruct (get_download srv _ _) as [b [r|detail]]; done.
Qed.

End BackedWhole.

(** ** Failures, in both views *)

Section Failures.

Import Browser Api Handler.

Context {B : Type}.
Variable srv : Server B.

(** A rejected download request starts no download: the handler reports
    "Download failed", clicks no link and leaves the component as it was,
    in the history view and in the upload view. *)
Theorem rejected_download_starts_nothing :
  (∀ (item : Job) (w : History.World B) (detail : option string),
     status item = "Completed" →
     (get_download srv (History.backend w) (id item)).2 = Rejected detail →
     let m := History.handleDownload srv item in
     downloads (effects m w) = []
     ∧ History.ui (final m w) = History.ui w
     ∧ toast History.toast_download_failed ∈ effects m w)
  ∧ (∀ (u : Backed.World B) (now : Z) (current : string)
       (detail : option string),
       Backed.currentImageId (Backed.ui u) = Some current →
       current ≠ EmptyString →
       (get_download srv (Backed.backend u) current).2 = Rejected detail →
       let m := Backed.downloadEnhancedImage srv now in
       downloads (effects m u) = []
       ∧ Backed.ui (final m u) = Backed.ui u
       ∧ toast Backed.toast_download_failed ∈ effects m u).
Proof.
  split.
  - intros item w detail Hst Hanswer. cbv zeta.
    unfold final, effects, History.handleDownload.
    rewrite (not_completed_false _ Hst).
    unfold bind, History.axios_get_download.
    destruct (get_download srv (History.backend w) (id item)) as [b o].
    cbn in Hanswer. subst o. cbn.
    split; [done|]. split; [done|].
    apply elem_of_cons. right. apply elem_of_cons. right.
    apply elem_of_cons. by left.
  - intros u now current detail Hcur Hne Hanswer. cbv zeta.
    unfold final, effects, Backed.downloadEnhancedImage, bind, gets.
    rewrite Hcur. destruct current as [|c current]; [done|]. cbn [truthy].
    unfold Backed.axios_get_download.
    destruct (get_download srv (Backed.backend u) (String c current))
      as [b o].
    cbn in Hanswer. subst o. cbn.
    split; [done|]. split; [done|].
    apply elem_of_cons. right. apply elem_of_cons. right.
    apply elem_of_cons. by left.
Qed.

(** A refresh of the history that fails, or that the backend answers
    without success, keeps the list that was shown; the loading flag is off
    again, exactly one request was sent, and only a rejection is reported. *)
Theorem failed_refresh_keeps_history (w : History.World B) :
  (∀ r, (get_history srv (History.backend w)).2 = Resolved r →
        history_success r = false) →
  let m := History.loadHistory srv in
  History.history (History.ui (final m w)) = History.history (History.ui w)
  ∧ History.loading (History.ui (final m w)) = false
  ∧ requests (effects m w)
    = [request "GET" (API srv +:+ "/images/history") None]
  ∧ (toast History.toast_history_failed ∈ effects m w
     ↔ ∃ detail, (get_history srv (History.backend w)).2 = Rejected detail).
Proof.
  intros Hfail. cbv zeta.
  unfold final, effects, History.loadHistory, bind, History.setLoading,
    History.update, modify, History.axios_get_history.
  cbn [History.ui History.backend].
  destruct (get_history srv (History.backend w)) as [b [r|detail]].
  - rewrite (Hfail r eq_refl). cbn.
    split; [done|]. split; [done|]. split; [done|]. split.
    + intros H. apply elem_of_cons in H as [H|H]; [done|].
      by apply elem_of_nil in H.
    + intros [detail H]. done.
  - cbn. split; [done|]. split; [done|]. split; [done|]. split.
    + intros _. by exists detail.
    + intros _. apply elem_of_cons. right. apply elem_of_cons. right.
      apply elem_of_cons. by left.
Qed.

End Failures.

(** ** The status badge *)

Section StatusBadge.

Import Browser Api Badge.

(** The badge of a row is in one tone: the icon's colour class is the text
    colour of the badge.  The green check is shown exactly on the rows whose
    Download button is enabled, and a status other than Completed,
    Processing and Failed (spelt exactly so) gets the gray clock. *)
Theorem badge_matches_download (item : Job) :
  let icon := getStatusIcon (status item) in
  (∃ tone,
     getStatusColor (status item) = badge_classes tone
     ∧ ends_with ("text-" +:+ tone +:+ "-600") (className icon))
  ∧ (component icon = "CheckCircle" ↔ History.not_completed item = false)
  ∧ (status item ∉ ["Completed"; "Processing"; "Failed"] →
     component icon = "Clock"
     ∧ getStatusColor (status item) = badge_classes "gray").
Proof.
  cbv zeta. unfold getStatusIcon, getStatusColor, History.not_completed.
  destruct (String.eqb_spec (status item) "Completed") as [Hc|Hc].
  { split; [|split].
    - exists "green". split; [done|]. by exists "w-3 h-3 mr-1 ".
    - done.
    - intros Hn. exfalso. apply Hn. rewrite Hc. apply elem_of_cons. by left. }
  destruct (String.eqb_spec (status item) "Processing") as [Hp|Hp].
  { split; [|split].
    - exists "blue". split; [done|]. by exists "w-3 h-3 mr-1 animate-spin ".
    - done.
    - intros Hn. exfalso. apply Hn. rewrite Hp.
      apply elem_of_cons. right. apply elem_of_cons. by left. }
  destruct (String.eqb_spec (status item) "Failed") as [Hf|Hf].
  { split; [|split].
    - exists "red". split; [done|]. by exists "w-3 h-3 mr-1 ".
    - done.
    - intros Hn. exfalso. apply Hn. rewrite Hf.
      apply elem_of_cons. right. apply elem_of_cons. right.
      apply elem_of_cons. by left. }
  split; [|split].
  - exists "gray". split; [done|]. by exists "w-3 h-3 mr-1 ".
  - done.
  - done.
Qed.

End StatusBadge.

(** ** File names taken from a header *)

Section HeaderNames.

Import Browser Api Handler Names.

Lemma dots_clean (s : string) : clean s = true → dots s = s.
Proof.
  induction s as [|c s IH]; [done|]. cbn [clean dots].
  intros [[_ Hc]%andb_prop Hs]%andb_prop.
  apply negb_true_iff in Hc. rewrite Hc. by rewrite IH.
Qed.

Lemma remove_quotes_clean (s : string) : clean s = true → remove_quotes s = s.
Proof.
  induction s as [|c s IH]; [done|]. cbn [clean remove_quotes].
  intros [[Hq _]%andb_prop Hs]%andb_prop.
  apply negb_true_iff in Hq. rewrite Hq. by rewrite IH.
Qed.

Lemma dots_app_clean (s t : string) :
  clean s = true → dots (s +:+ t) = s +:+ dots t.
Proof.
  induction s as [|c s IH]; [done|]. rewrite !append_cons. cbn [clean dots].
  intros [[_ Hc]%andb_prop Hs]%andb_prop.
  apply negb_true_iff in Hc. rewrite Hc. by rewrite IH.
Qed.

Lemma remove_quotes_app (s t : string) :
  remove_quotes (s +:+ t) = remove_quotes s +:+ remove_quotes t.
Proof.
  induction s as [|c s IH]; [done|]. rewrite append_cons.
  cbn [remove_quotes].
  destruct (Ascii.eqb c double_quote); rewrite ?append_cons; by rewrite IH.
Qed.

(** What [dots] keeps has no line terminator. *)
Lemma dots_no_terminator (s : string) (c : Ascii.ascii) :
  In c (String.list_ascii_of_string (dots s)) → is_line_terminator c = false.
Proof.
  induction s as [|a s IH]; [done|]. cbn [dots].
  destruct (is_line_terminator a) eqn:Ha; [done|].
  cbn [String.list_ascii_of_string In]. intros [<- | H]; auto.
Qed.

Lemma remove_quotes_chars (s : string) (c : Ascii.ascii) :
  In c (String.list_ascii_of_string (remove_quotes s)) →
  c ≠ double_quote ∧ In c (String.list_ascii_of_string s).
Proof.
  induction s as [|a s IH]; [done|].
  cbn [remove_quotes String.list_ascii_of_string In].
  destruct (Ascii.eqb_spec a double_quote) as [Ha|Ha].
  - intros H. destruct (IH H). auto.
  - cbn [String.list_ascii_of_string In]. intros [<- | H]; [auto|].
    destruct (IH H). auto.
Qed.

Lemma dots_quoted (fn : string) : clean fn = true → dots (quoted fn) = quoted fn.
Proof.
  intros Hclean. unfold quoted. cbn [dots].
  assert (is_line_terminator double_quote = false) as -> by done.
  rewrite dots_app_clean by done. done.
Qed.

Lemma remove_quotes_quoted (fn : string) :
  clean fn = true → remove_quotes (quoted fn) = fn.
Proof.
  intros Hclean. unfold quoted. cbn [remove_quotes].
  rewrite Ascii.eqb_refl, remove_quotes_app, (remove_quotes_clean fn Hclean).
  cbn [remove_quotes]. rewrite Ascii.eqb_refl. apply append_nil_r.
Qed.

Lemma match_filename_dots (header capture : string) :
  match_filename header = Some capture →
  ∃ rest, capture = dots rest.
Proof.
  induction header as [|a header IH]; [done|].
  cbn [match_filename].
  destruct (strip_prefix "filename=" (String a header)) as [rest|]; [|exact IH].
  destruct (dots rest) as [|c d] eqn:Hd; [exact IH|].
  intros [= <-]. exists rest. done.
Qed.

(** Whenever the header supplies the name, the suggested file name has no
    double quote and no line break in it. *)
Theorem header_name_has_no_quote (header fallback : string) :
  match_filename header ≠ None →
  ∀ c, In c (String.list_ascii_of_string
               (filename_from_header (Some header) fallback)) →
       c ≠ double_quote ∧ is_line_terminator c = false.
Proof.
  intros Hmatch c. unfold filename_from_header.
  destruct header as [|a header]; [done|]. cbn [truthy].
  destruct (match_filename (String a header)) as [capture|] eqn:Hm; [|done].
  destruct (match_filename_dots _ _ Hm) as [rest ->].
  intros [Hq Hin]%remove_quotes_chars. split; [done|].
  by eapply dots_no_terminator.
Qed.

Lemma header_name_has_no_quote_witness :
  List.Forall
    (fun c => c ≠ double_quote ∧ is_line_terminator c = false)
    (String.list_ascii_of_string
       (filename_from_header
          (Some ("attachment; filename=" +:+ quoted "enhanced_scan.png"))
          "fallback.png")).
Proof.
  apply List.Forall_forall.
  apply (header_name_has_no_quote
           ("attachment; filename=" +:+ quoted "enhanced_scan.png")
           "fallback.png").
  discriminate.
Defined.

Context {B : Type}.
Variable srv : Server B.

(** A name sent between double quotes arrives as it was sent: for a
    Completed job whose download is answered with the header
    [attachment; filename=<name in double quotes>], the history view
    suggests exactly <name>, provided the name itself has no double quote
    and no line break. *)
Theorem quoted_name_round_trip
    (item : Job) (w : History.World B) (r : DownloadResponse) (fn : string) :
  status item = "Completed" →
  (get_download srv (History.backend w) (id item)).2 = Resolved r →
  content_disposition r = Some ("attachment; filename=" +:+ quoted fn) →
  clean fn = true →
  downloads (effects (History.handleDownload srv item) w) = [fn].
Proof.
  intros Hst Hr Hcd Hclean.
  unfold History.handleDownload, effects.
  rewrite (not_completed_false _ Hst).
  unfold bind, History.axios_get_download.
  destruct (get_download srv (History.backend w) (id item)) as [b o].
  cbn in Hr. subst o. cbn [fst snd]. rewrite Hcd.
  rewrite filename_from_attachment.
  - by rewrite dots_quoted, remove_quotes_quoted.
  - rewrite dots_quoted by done. done.
Qed.

End HeaderNames.

Lemma buttons_after_selection_witness :
  BackedFlow.select_disabled
    (Backed.ui
       (Handler.final
          (BackedSelect.handleFileSelect_in Sample.server
             BackedSelect.answer_first (Some SampleFlow.small_png))
          Sample.backed_idle)) = false
  ∧ BackedFlow.download_disabled
      (Backed.ui
         (Handler.final
            (BackedSelect.handleFileSelect_in Sample.server
               BackedSelect.answer_first (Some SampleFlow.small_png))
            Sample.backed_idle)) = true
  ∧ BackedFlow.enhance_disabled
      (Backed.ui
         (Handler.final
            (BackedSelect.handleFileSelect_in Sample.server
               BackedSelect.answer_first (Some SampleFlow.small_png))
            Sample.backed_idle)) = false
  ∧ BackedFlow.enhance_disabled
      (Backed.ui
         (Handler.final
            (BackedSelect.handleFileSelect_started Sample.server
               (Some SampleFlow.small_png))
            Sample.backed_idle)) = true.
Proof.
  assert (Browser.type SampleFlow.small_png
          ∈ ["image/jpeg"; "image/jpg"; "image/png"])
    as Htype by (rewrite !elem_of_cons; auto).
  destruct (buttons_after_selection Sample.server SampleFlow.small_png
              Sample.backed_idle BackedSelect.answer_first
              Htype ltac:(discriminate) eq_refl eq_refl)
    as ((_ & Hwaiting & _) & Hselect & Hdownload & Henhance).
  split; [exact Hselect|]. split; [exact Hdownload|].
  split; [|exact Hwaiting].
  apply Henhance.
  eexists. split; [reflexivity|]. split; [reflexivity | discriminate].
Defined.

Lemma nothing_without_current_image_witness :
  BackedFlow.enhanceImage Sample.server SampleFlow.post_enhance
    SampleFlow.toFixed1 Sample.backed_idle
  = (tt, Sample.backed_idle, [Browser.toast BackedFlow.toast_no_image])
  ∧ Backed.downloadEnhancedImage Sample.server 0 Sample.backed_idle
    = (tt, Sample.backed_idle, []).
Proof.
  exact (nothing_without_current_image Sample.server SampleFlow.post_enhance
           SampleFlow.toFixed1 Sample.backed_idle 0 eq_refl).
Defined.

Lemma enhance_image_outcomes_witness :
  Backed.enhancedImage
    (Backed.ui
       (Handler.final
          (BackedFlow.enhanceImage Sample.server SampleFlow.post_enhance
             SampleFlow.toFixed1)
          SampleFlow.uploaded))
  = Some "http://localhost:8001/api/images/enhanced/scan.jpg"
  ∧ Handler.effects
      (BackedFlow.enhanceImage Sample.server SampleFlow.post_enhance
         SampleFlow.toFixed1)
      SampleFlow.uploaded
    = [Browser.request "POST"
         "http://localhost:8001/api/images/scan.jpg/enhance" None;
       Browser.toast
         {| Browser.title := "Enhancement completed";
            Browser.description :=
              "Image enhanced in 1.5s using Grayscale + Sharpening";
            Browser.variant := None |}].
Proof.
  destruct (enhance_image_outcomes Sample.server SampleFlow.post_enhance
              SampleFlow.toFixed1 SampleFlow.uploaded "scan.jpg"
              eq_refl ltac:(discriminate))
    as (_ & _ & _ & _ & Hsuccess & _).
  destruct (Hsuccess _ eq_refl eq_refl) as (Hshown & Htoast & _).
  split; [exact Hshown|]. exact (Htoast _ eq_refl).
Defined.

Lemma enhancement_overtaken_by_upload_witness :
  let after :=
    Handler.final
      (Handler.bind
         (BackedFlow.enhanceImage_started Sample.server SampleFlow.post_enhance)
         (fun started =>
            Handler.bind
              (Backed.handleFileSelect Sample.server
                 (Some SampleFlow.small_png))
              (fun _ =>
                 match started with
                 | None => Handler.ret tt
                 | Some (id, response) =>
                     BackedFlow.enhanceImage_settled Sample.server
                       SampleFlow.toFixed1 id response
                 end)))
      SampleFlow.uploaded in
  Backed.enhancedImage (Backed.ui after)
  = Some "http://localhost:8001/api/images/enhanced/scan.jpg"
  ∧ Backed.currentImageId (Backed.ui after) = Some "knee.png"
  ∧ Browser.requests
      (Handler.effects (Backed.downloadEnhancedImage Sample.server 0) after)
    = [Browser.request "GET"
         "http://localhost:8001/api/images/knee.png/download" None].
Proof.
  assert (Browser.type SampleFlow.small_png
          ∈ ["image/jpeg"; "image/jpg"; "image/png"])
    as Htype by (rewrite !elem_of_cons; auto).
  destruct (enhancement_overtaken_by_upload Sample.server
              SampleFlow.post_enhance SampleFlow.toFixed1
              SampleFlow.uploaded "scan.jpg" SampleFlow.small_png
              _ _ 0
              eq_refl ltac:(discriminate) Htype ltac:(discriminate)
              eq_refl eq_refl eq_refl eq_refl ltac:(discriminate))
    as (Hshown & Hcurrent & _ & _ & Hfetch).
  split; [exact Hshown|]. split; [exact Hcurrent | exact Hfetch].
Defined.

Lemma rejected_download_starts_nothing_witness :
  Browser.downloads
    (Handler.effects
       (History.handleDownload SampleFlow.failing_server
          SampleHistory.completed_job)
       SampleHistory.idle) = []
  ∧ Browser.downloads
      (Handler.effects
         (Backed.downloadEnhancedImage SampleFlow.failing_server 0)
         SampleHistory.enhanced_upload) = [].
Proof.
  destruct (rejected_download_starts_nothing SampleFlow.failing_server)
    as [Hhistory Hupload].
  split.
  - exact (proj1 (Hhistory SampleHistory.completed_job SampleHistory.idle
                    None eq_refl eq_refl)).
  - exact (proj1 (Hupload SampleHistory.enhanced_upload 0 "scan.jpg" None
                    eq_refl ltac:(discriminate) eq_refl)).
Defined.

Lemma failed_refresh_keeps_history_witness :
  History.history
    (History.ui
       (Handler.final (History.loadHistory SampleFlow.failing_server)
          SampleHistory.idle))
  = [SampleHistory.processing_job; SampleHistory.completed_job]
  ∧ History.loading
      (History.ui
         (Handler.final (History.loadHistory SampleFlow.failing_server)
            SampleHistory.idle)) = false.
Proof.
  destruct (failed_refresh_keeps_history SampleFlow.failing_server
              SampleHistory.idle ltac:(discriminate))
    as (Hkept & Hloading & _).
  split; [exact Hkept | exact Hloading].
Defined.

Lemma quoted_name_round_trip_witness :
  Browser.downloads
    (Handler.effects
       (History.handleDownload SampleFlow.quoting_server
          SampleHistory.completed_job)
       SampleHistory.idle)
  = ["enhanced_scan.png"].
Proof.
  exact (quoted_name_round_trip SampleFlow.quoting_server
           SampleHistory.completed_job SampleHistory.idle _
           "enhanced_scan.png" eq_refl eq_refl eq_refl eq_refl).
Defined.
